(** * Consultancy_Backend: the request handlers of [server.js]

    A shallow embedding of the Express handlers of [src/server.js] over an
    in-memory model of the three Mongoose collections (User, Product,
    Purchase), and the properties of the handlers.

    Conventions of the model.
    - A JavaScript [Number] is held as the integer it denotes ([Z]); the
      arithmetic of the quantity update rounds to the nearest double, ties
      to even, as IEEE 754 does. Fractions and the infinities are not
      modelled.
    - A collection is the list of its documents in insertion order;
      [findOne] returns the first match.
    - [req.body] is the record of the fields a handler destructures; a field
      is an [option] where the handler or the schema gives a meaning to its
      absence ([undefined]), and present otherwise. The body of a purchase,
      which the handler hands over as a whole, also carries the keys that
      are no path of the schema, and values a cast refuses.
    - The persistence layer is Mongoose 6 or later: keys whose value is
      [undefined] are removed from an update document, a required String
      path refuses the empty string, [save()] validates the document it
      writes, a path parameter that is not an ObjectId makes a
      [findById...] call throw.
    - The database answers: a query or a write fails for the reasons above
      only. *)

From Stdlib Require Import List String Ascii ZArith NArith Bool Lia.
Import ListNotations.
Local Open Scope string_scope.
Local Open Scope list_scope.
#[local] Set Warnings "-register-all".

(** ** JSON values and responses *)

(** The 12-byte identifier MongoDB assigns to a document. *)
Definition ObjectId := N.

(** JSON as [res.json] sends it; an identifier and a date are kept as such
    instead of their string renderings. *)
Inductive json : Type :=
| JNull
| JBool (b : bool)
| JNum (n : Z)
| JStr (s : string)
| JId (o : ObjectId)
| JDate (t : Z)
| JArr (items : list json)
| JObj (fields : list (string * json)).

Definition object := list (string * json).

Fixpoint lookup (k : string) (o : object) : option json :=
  match o with
  | [] => None
  | (k', v) :: o' => if k' =? k then Some v else lookup k o'
  end.

(** A field that is [undefined] is left out of the serialised object. *)
Definition field {A} (k : string) (inj : A -> json) (v : option A) : object :=
  match v with
  | Some a => [(k, inj a)]
  | None => []
  end.

Record response := res { status : Z; body : json }.

(** ** Exceptions of the persistence layer *)

Inductive error :=
| CastError
| ValidationError
| DuplicateKey
| DocumentNotFound.

Inductive result (A : Type) :=
| Ok (a : A)
| Throw (e : error).
Arguments Ok {A} a.
Arguments Throw {A} e.

Definition bind {A B} (c : result A) (k : A -> result B) : result B :=
  match c with
  | Ok a => k a
  | Throw e => Throw e
  end.

Notation "x <- c ;; k" := (bind c (fun x => k))
  (at level 61, c at next level, right associativity).

(** [try { ... } catch (err) { ... }] *)
Definition try_catch {A} (c : result A) (handler : error -> A) : A :=
  match c with
  | Ok a => a
  | Throw e => handler e
  end.

(** ** Schemas *)

Module User.
Record doc := mk {
  _id : ObjectId;
  username : string;
  email : string;
  password : string;
  phone : string }.
End User.

Module Product.
Record doc := mk {
  _id : ObjectId;
  product_id : string;
  name : string;
  type : option string;
  price : Z;
  purchasePrice : Z;
  quantity : Z;
  rack : option string }.
End Product.

Module Customer.
Record t := mk {
  name : option string;
  place : option string;
  phone : option string;
  address : option string }.

Definition empty : t := mk None None None None.
End Customer.

Module Purchase.
Record doc := mk {
  _id : ObjectId;
  customer : Customer.t;
  products : list json;
  total : option Z;
  date : Z }.
End Purchase.

(** What Mongoose needs to know of a model: its identifier, the pairs of
    documents a [unique: true] index refuses to hold together, and the
    object a document serialises to. *)
Class Schema (D : Type) := {
  id_of : D -> ObjectId;
  unique_clash : D -> D -> bool;
  toJSON : D -> object }.

#[export] Instance userSchema : Schema User.doc := {|
  id_of := User._id;
  unique_clash u v :=
    (User.username u =? User.username v) || (User.email u =? User.email v);
  toJSON u :=
    [("_id", JId (User._id u));
     ("username", JStr (User.username u));
     ("email", JStr (User.email u));
     ("password", JStr (User.password u));
     ("phone", JStr (User.phone u));
     ("__v", JNum 0)] |}.

#[export] Instance productSchema : Schema Product.doc := {|
  id_of := Product._id;
  unique_clash p q := Product.product_id p =? Product.product_id q;
  toJSON p :=
    [("_id", JId (Product._id p));
     ("product_id", JStr (Product.product_id p));
     ("name", JStr (Product.name p))]
    ++ field "type" JStr (Product.type p)
    ++ [("price", JNum (Product.price p));
        ("purchasePrice", JNum (Product.purchasePrice p));
        ("quantity", JNum (Product.quantity p))]
    ++ field "rack" JStr (Product.rack p)
    ++ [("__v", JNum 0)] |}.

Definition customerJSON (c : Customer.t) : object :=
  field "name" JStr (Customer.name c)
  ++ field "place" JStr (Customer.place c)
  ++ field "phone" JStr (Customer.phone c)
  ++ field "address" JStr (Customer.address c).

#[export] Instance purchaseSchema : Schema Purchase.doc := {|
  id_of := Purchase._id;
  unique_clash _ _ := false;
  toJSON p :=
    [("_id", JId (Purchase._id p))]
    ++ match customerJSON (Purchase.customer p) with
       | [] => []
       | c => [("customer", JObj c)]
       end
    ++ [("products", JArr (Purchase.products p))]
    ++ field "total" JNum (Purchase.total p)
    ++ [("date", JDate (Purchase.date p));
        ("__v", JNum 0)] |}.

(** ** The database *)

Record db := mkdb {
  users : list User.doc;
  products : list Product.doc;
  purchases : list Purchase.doc }.

Definition empty_db : db := mkdb [] [] [].

Definition set_users (s : db) (c : list User.doc) : db :=
  mkdb c (products s) (purchases s).
Definition set_products (s : db) (c : list Product.doc) : db :=
  mkdb (users s) c (purchases s).
Definition set_purchases (s : db) (c : list Purchase.doc) : db :=
  mkdb (users s) (products s) c.

(** What a handler reads from outside the request and the database: the
    identifier [new Model(...)] draws and [Date.now()]. *)
Record env := mkenv { new_id : ObjectId; now : Z }.

(** ** Request bodies

    [username] and [email] of a signup and [username] of a login are the keys
    of a query and are taken as given; every other field may be missing. A
    value that is present is of the type of its path; a value the cast of
    its path refuses is modelled for the body of a purchase. *)

Module SignupBody.
Record t := mk {
  username : string;
  email : string;
  password : option string;
  phone : option string }.
End SignupBody.

Module LoginBody.
Record t := mk {
  username : string;
  password : option string }.
End LoginBody.

Module ProductBody.
Record t := mk {
  product_id : option string;
  name : option string;
  type : option string;
  price : option Z;
  purchasePrice : option Z;
  quantity : option Z;
  rack : option string }.
End ProductBody.

Module ReduceBody.
Record t := mk { quantityToReduce : option Z }.
End ReduceBody.

(** A body value for a path with a cast: a value of the path's type, or one
    the cast refuses (for a Number, a string that is no number or an
    object). *)
Inductive input (A : Type) :=
| Typed (a : A)
| IllTyped.
Arguments Typed {A} a.
Arguments IllTyped {A}.

Module PurchaseBody.
Record t := mk {
  customer : option Customer.t;
  products : option (list json);
  total : option (input Z);
  date : option (input Z);
  extra : object }.
End PurchaseBody.

(** ** Mongoose: documents *)

Definition default {A} (d : A) (v : option A) : A :=
  match v with
  | Some a => a
  | None => d
  end.

(** [required: true] on a Number path. *)
Definition required {A} (v : option A) : result A :=
  match v with
  | Some a => Ok a
  | None => Throw ValidationError
  end.

(** [required: true] on a String path: the empty string is refused too. *)
Definition required_string (v : option string) : result string :=
  match v with
  | Some s => if s =? "" then Throw ValidationError else Ok s
  | None => Throw ValidationError
  end.

(** [new User({ username, email, password, phone })], as validated by
    [save()] against [userSchema]. *)
Definition validateUser (oid : ObjectId)
    (username email password phone : option string) : result User.doc :=
  username <- required_string username ;;
  email <- required_string email ;;
  password <- required_string password ;;
  phone <- required_string phone ;;
  Ok (User.mk oid username email password phone).

(** [new Product({ ... })], as validated by [save()] against
    [productSchema]; [purchasePrice] has the default 0. *)
Definition validateProduct (oid : ObjectId) (b : ProductBody.t)
    : result Product.doc :=
  product_id <- required_string (ProductBody.product_id b) ;;
  name <- required_string (ProductBody.name b) ;;
  price <- required (ProductBody.price b) ;;
  quantity <- required (ProductBody.quantity b) ;;
  Ok (Product.mk oid product_id name (ProductBody.type b) price
        (default 0%Z (ProductBody.purchasePrice b)) quantity
        (ProductBody.rack b)).

(** The cast of a path: a missing value stays missing, a refused one is
    the CastError [save()] throws. *)
Definition castInput {A} (v : option (input A)) : result (option A) :=
  match v with
  | None => Ok None
  | Some (Typed a) => Ok (Some a)
  | Some IllTyped => Throw CastError
  end.

(** [new Purchase(req.body)], as validated by [save()] against
    [purchaseSchema]: nothing is required; [products] defaults to the empty
    array and [date] to [Date.now]; [total] and [date] are cast; the keys
    of the body that are no path of the schema, [PurchaseBody.extra], are
    dropped. The body is taken to set neither [_id] nor [__v], and to
    spell no path of the schema as a dotted key. *)
Definition newPurchase (e : env) (b : PurchaseBody.t) : result Purchase.doc :=
  total <- castInput (PurchaseBody.total b) ;;
  date <- castInput (PurchaseBody.date b) ;;
  Ok (Purchase.mk (new_id e)
        (default Customer.empty (PurchaseBody.customer b))
        (default [] (PurchaseBody.products b))
        total
        (default (now e) date)).

(** The [$set] of an update document, keys with an [undefined] value
    removed; [product_id] is not among the keys the handler sends. *)
Definition applyUpdate (u : ProductBody.t) (p : Product.doc) : Product.doc :=
  Product.mk (Product._id p)
    (default (Product.product_id p) (ProductBody.product_id u))
    (default (Product.name p) (ProductBody.name u))
    (match ProductBody.type u with Some v => Some v | None => Product.type p end)
    (default (Product.price p) (ProductBody.price u))
    (default (Product.purchasePrice p) (ProductBody.purchasePrice u))
    (default (Product.quantity p) (ProductBody.quantity u))
    (match ProductBody.rack u with Some v => Some v | None => Product.rack p end).

Definition set_quantity (q : Z) (p : Product.doc) : Product.doc :=
  Product.mk (Product._id p) (Product.product_id p) (Product.name p)
    (Product.type p) (Product.price p) (Product.purchasePrice p) q
    (Product.rack p).

(** ** Mongoose: collections *)

Section Collection.
Context {D : Type} `{Schema D}.

Definition has_id (oid : ObjectId) (d : D) : bool := (id_of d =? oid)%N.

Definition findOne (filter : D -> bool) (c : list D) : option D :=
  find filter c.

(** The first document the filter accepts is rewritten. *)
Fixpoint updateOne (filter : D -> bool) (f : D -> D) (c : list D) : list D :=
  match c with
  | [] => []
  | d :: c' => if filter d then f d :: c' else d :: updateOne filter f c'
  end.

(** The first document the filter accepts is removed. *)
Fixpoint deleteOne (filter : D -> bool) (c : list D) : list D :=
  match c with
  | [] => []
  | d :: c' => if filter d then c' else d :: deleteOne filter c'
  end.

(** An insertion is refused when the identifier is taken or a unique
    index would hold two equal keys. *)
Definition insertOne (d : D) (c : list D) : result (list D) :=
  if existsb (fun x => has_id (id_of d) x || unique_clash x d) c
  then Throw DuplicateKey
  else Ok (c ++ [d]).

Definition findOneAndDelete (filter : D -> bool) (c : list D)
    : option D * list D :=
  (findOne filter c, deleteOne filter c).

(** With [{ new: true }] the document is returned as updated. *)
Definition findOneAndUpdate (filter : D -> bool) (f : D -> D) (c : list D)
    : option D * list D :=
  (option_map f (findOne filter c), updateOne filter f c).

(** [Model.find()] and [Model.find({}, { key: 0, ... })]. *)
Definition exclude (keys : list string) (o : object) : object :=
  filter (fun kv => negb (existsb (String.eqb (fst kv)) keys)) o.

Definition findAll (excluded : list string) (c : list D) : list json :=
  map (fun d => JObj (exclude excluded (toJSON d))) c.
End Collection.

(** ** Numbers *)

(** The double nearest to an integer, ties to even: integers up to 2^53 in
    magnitude are doubles; a larger one keeps its 53 leading bits. *)
Definition round_double (z : Z) : Z :=
  let m := Z.abs z in
  let e := (Z.log2 m - 52)%Z in
  if (e <=? 0)%Z then z
  else
    let ulp := (2 ^ e)%Z in
    let q := (m / ulp)%Z in
    let r := (m mod ulp)%Z in
    let q' :=
      if (2 * r <? ulp)%Z then q
      else if (ulp <? 2 * r)%Z then (q + 1)%Z
      else if Z.even q then q else (q + 1)%Z in
    (Z.sgn z * (q' * ulp))%Z.



(** [x < y]; an [undefined] operand is NaN, and the comparison false. *)
Definition js_lt (x : Z) (y : option Z) : bool :=
  match y with
  | Some y => (round_double x <? round_double y)%Z
  | None => false
  end.

(** [x - y]; [None] is NaN. *)
Definition js_sub (x : Z) (y : option Z) : option Z :=
  match y with
  | Some y => Some (round_double (round_double x - round_double y))
  | None => None
  end.

(** The cast of a Number path refuses NaN. *)
Definition castNumber (v : option Z) : result Z :=
  match v with
  | Some n => Ok n
  | None => Throw CastError
  end.

(** [product.quantity = quantity; product.save()] on a loaded document:
    the assignment casts the value, [save()] validates the document
    against [productSchema], the required strings included, and writes the
    modified path to the stored document of that [_id]. *)
Definition saveQuantity (product : Product.doc) (quantity : option Z)
    (c : list Product.doc) : result (list Product.doc) :=
  quantity <- castNumber quantity ;;
  product_id <- required_string (Some (Product.product_id product)) ;;
  name <- required_string (Some (Product.name product)) ;;
  if existsb (has_id (Product._id product)) c
  then Ok (updateOne (has_id (Product._id product)) (set_quantity quantity) c)
  else Throw DocumentNotFound.

(** ** Express: the router *)

Inductive method := GET | POST | PUT | DELETE.

Definition method_eqb (m n : method) : bool :=
  match m, n with
  | GET, GET | POST, POST | PUT, PUT | DELETE, DELETE => true
  | _, _ => false
  end.

(** A route path, split at its slashes: literal segments and [:name]. *)
Inductive segment :=
| Lit (s : string)
| Param (name : string).

(** The handlers, named after what they do. *)
Inductive endpoint :=
| Signup
| Login
| GetUsers
| DeleteProductById
| AddProduct
| GetProducts
| GetPurchases
| UpdateProduct
| UpdateQuantity
| DeleteProductByProductId
| SavePurchase.

(** The routes in the order [server.js] registers them. *)
Definition routes : list (method * list segment * endpoint) :=
  [ (POST, [Lit "api"; Lit "signup"], Signup);
    (POST, [Lit "api"; Lit "login"], Login);
    (GET, [Lit "api"; Lit "users"], GetUsers);
    (DELETE, [Lit "api"; Lit "products"; Param "id"], DeleteProductById);
    (POST, [Lit "api"; Lit "products"], AddProduct);
    (GET, [Lit "api"; Lit "products"], GetProducts);
    (GET, [Lit "api"; Lit "purchases"], GetPurchases);
    (PUT, [Lit "api"; Lit "products"; Lit "update"; Param "id"], UpdateProduct);
    (PUT, [Lit "api"; Lit "products"; Param "id"], UpdateQuantity);
    (DELETE, [Lit "api"; Lit "products"; Param "id"], DeleteProductByProductId);
    (POST, [Lit "api"; Lit "purchases"], SavePurchase) ].

Definition lower (c : ascii) : ascii :=
  let n := nat_of_ascii c in
  if (65 <=? n)%nat && (n <=? 90)%nat then ascii_of_nat (n + 32) else c.

Fixpoint lowercase (s : string) : string :=
  match s with
  | EmptyString => EmptyString
  | String c s' => String (lower c) (lowercase s')
  end.

(** Express matches literal segments without regard to case; a parameter
    takes one non-empty segment; one trailing slash, the empty last segment
    of the split path, is accepted. The result is [req.params]. *)
Fixpoint match_path (pattern : list segment) (path : list string)
    : option (list (string * string)) :=
  match pattern, path with
  | [], [] => Some []
  | [], [x] => if x =? "" then Some [] else None
  | Lit l :: pattern', x :: path' =>
      if lowercase l =? lowercase x then match_path pattern' path' else None
  | Param k :: pattern', x :: path' =>
      if x =? "" then None
      else option_map (cons (k, x)) (match_path pattern' path')
  | _, _ => None
  end.

(** The first route of the table that matches takes the request: no handler
    of [server.js] calls [next]. *)
Fixpoint dispatch_in (table : list (method * list segment * endpoint))
    (m : method) (path : list string)
    : option (endpoint * list (string * string)) :=
  match table with
  | [] => None
  | (m', pattern, h) :: table' =>
      if method_eqb m' m then
        match match_path pattern path with
        | Some params => Some (h, params)
        | None => dispatch_in table' m path
        end
      else dispatch_in table' m path
  end.

Definition dispatch := dispatch_in routes.

Fixpoint param (k : string) (params : list (string * string)) : string :=
  match params with
  | [] => ""
  | (k', v) :: params' => if k' =? k then v else param k params'
  end.

(** What Express answers when no route takes the request. *)
Definition notRouted : response := res 404 JNull.

Section Server.
(** The path parameter of a [findById...] call is cast to an ObjectId;
    which strings denote one is left to the BSON library. *)
Variable castObjectId : string -> option ObjectId.

Definition castId (id : string) : result ObjectId :=
  match castObjectId id with
  | Some oid => Ok oid
  | None => Throw CastError
  end.

Definition findByIdAndDelete {D} `{Schema D} (id : string) (c : list D)
    : result (option D * list D) :=
  oid <- castId id ;;
  Ok (findOneAndDelete (has_id oid) c).

Definition findByIdAndUpdate {D} `{Schema D} (id : string) (f : D -> D)
    (c : list D) : result (option D * list D) :=
  oid <- castId id ;;
  Ok (findOneAndUpdate (has_id oid) f c).

(** ** Handlers *)

Definition message (k v : string) : json := JObj [(k, JStr v)].

(** [app.post("/api/signup", ...)] *)
Definition signup (e : env) (b : SignupBody.t) (s : db) : response * db :=
  try_catch
    (let username := SignupBody.username b in
     let email := SignupBody.email b in
     let existingUser :=
       findOne (fun u => (User.email u =? email)
                         || (User.username u =? username)) (users s) in
     match existingUser with
     | Some _ => Ok (res 400 (message "message" "User already exists"), s)
     | None =>
         newUser <- validateUser (new_id e) (Some username) (Some email)
                      (SignupBody.password b) (SignupBody.phone b) ;;
         c <- insertOne newUser (users s) ;;
         Ok (res 201 (message "message" "Signup successful"), set_users s c)
     end)
    (fun err => (res 500 (message "error" "Signup failed"), s)).

(** [app.post("/api/login", ...)]; [!==] is strict equality. *)
Definition login (b : LoginBody.t) (s : db) : response * db :=
  try_catch
    (match findOne (fun u => User.username u =? LoginBody.username b)
             (users s) with
     | None => Ok (res 400 (message "message" "User not found"), s)
     | Some user =>
         if negb (match LoginBody.password b with
                  | Some password => User.password user =? password
                  | None => false
                  end)
         then Ok (res 401 (message "message" "Invalid credentials"), s)
         else Ok (res 200 (message "message" "Login successful"), s)
     end)
    (fun err => (res 500 (message "error" "Login failed"), s)).

(** [app.get("/api/users", ...)] *)
Definition getUsers (s : db) : response * db :=
  try_catch
    (Ok (res 200 (JArr (findAll ["password"] (users s))), s))
    (fun err => (res 500 (message "error" "Failed to fetch user details"), s)).

(** [app.delete("/api/products/:id", ...)], the first one registered. *)
Definition deleteProductById (id : string) (s : db) : response * db :=
  try_catch
    (r <- findByIdAndDelete id (products s) ;;
     match r with
     | (None, _) => Ok (res 404 (message "message" "Product not found"), s)
     | (Some product, c) =>
         Ok (res 200 (message "message" "Product deleted successfully"),
             set_products s c)
     end)
    (fun err => (res 500 (message "message" "Server error"), s)).

(** [app.post("/api/products", ...)] *)
Definition addProduct (e : env) (b : ProductBody.t) (s : db)
    : response * db :=
  try_catch
    (newProduct <- validateProduct (new_id e) b ;;
     c <- insertOne newProduct (products s) ;;
     Ok (res 201 (message "message" "Product added successfully"),
         set_products s c))
    (fun err => (res 500 (message "error" "Failed to add product"), s)).

(** [app.get("/api/products", ...)] *)
Definition getProducts (s : db) : response * db :=
  try_catch
    (Ok (res 200 (JArr (findAll [] (products s))), s))
    (fun err => (res 500 (message "error" "Failed to fetch products"), s)).

(** [app.get('/api/purchases', ...)] *)
Definition getPurchases (s : db) : response * db :=
  try_catch
    (Ok (res 200 (JArr (findAll [] (purchases s))), s))
    (fun err =>
       (res 500 (message "message" "Error fetching purchase history"), s)).

(** [app.put("/api/products/update/:id", ...)] *)
Definition updateProduct (id : string) (b : ProductBody.t) (s : db)
    : response * db :=
  let quantity := ProductBody.quantity b in
  let name := ProductBody.name b in
  let price := ProductBody.price b in
  let purchasePrice := default 0%Z (ProductBody.purchasePrice b) in
  let type := ProductBody.type b in
  let rack := ProductBody.rack b in
  try_catch
    (r <- findByIdAndUpdate id
            (applyUpdate (ProductBody.mk None name type price
                            (Some purchasePrice) quantity rack))
            (products s) ;;
     match r with
     | (None, _) => Ok (res 404 (message "error" "Product not found"), s)
     | (Some updatedProduct, c) =>
         Ok (res 200 (JObj [("message", JStr "Product updated successfully");
                            ("product", JObj (toJSON updatedProduct))]),
             set_products s c)
     end)
    (fun err => (res 500 (message "error" "Failed to update product"), s)).

(** [app.put("/api/products/:id", ...)] *)
Definition updateQuantity (id : string) (b : ReduceBody.t) (s : db)
    : response * db :=
  let quantityToReduce := ReduceBody.quantityToReduce b in
  try_catch
    (match findOne (fun p => Product.product_id p =? id) (products s) with
     | None => Ok (res 404 (message "error" "Product not found"), s)
     | Some product =>
         if js_lt (Product.quantity product) quantityToReduce
         then Ok (res 400 (message "error" "Insufficient quantity"), s)
         else
           let quantity :=
             js_sub (Product.quantity product) quantityToReduce in
           c <- saveQuantity product quantity (products s) ;;
           Ok (res 200 (message "message" "Quantity updated successfully"),
               set_products s c)
     end)
    (fun err => (res 500 (message "error" "Failed to update quantity"), s)).

(** [app.delete("/api/products/:id", ...)], the second one registered. *)
Definition deleteProductByProductId (id : string) (s : db)
    : response * db :=
  try_catch
    (match findOneAndDelete (fun p => Product.product_id p =? id)
             (products s) with
     | (None, _) => Ok (res 404 (message "error" "Product not found"), s)
     | (Some deleted, c) =>
         Ok (res 200 (message "message" "Product removed successfully"),
             set_products s c)
     end)
    (fun err => (res 500 (message "error" "Failed to delete product"), s)).

(** [app.post("/api/purchases", ...)] *)
Definition savePurchase (e : env) (b : PurchaseBody.t) (s : db)
    : response * db :=
  try_catch
    (newPurchase <- newPurchase e b ;;
     c <- insertOne newPurchase (purchases s) ;;
     Ok (res 201 (message "message" "Purchase saved successfully"),
         set_purchases s c))
    (fun err => (res 500 (message "error" "Failed to save purchase"), s)).

(** A DELETE request, from the router to the handler that answers it. *)
Definition serveDelete (path : list string) (s : db) : response * db :=
  match dispatch DELETE path with
  | Some (DeleteProductById, params) =>
      deleteProductById (param "id" params) s
  | Some (DeleteProductByProductId, params) =>
      deleteProductByProductId (param "id" params) s
  | _ => (notRouted, s)
  end.

End Server.

(** ** The server as a whole *)

(** What a client can make the server do: one call of a handler, a DELETE
    request going through the router. *)
Inductive call :=
| CallSignup (b : SignupBody.t)
| CallLogin (b : LoginBody.t)
| CallGetUsers
| CallDelete (path : list string)
| CallAddProduct (b : ProductBody.t)
| CallGetProducts
| CallGetPurchases
| CallUpdateProduct (id : string) (b : ProductBody.t)
| CallUpdateQuantity (id : string) (b : ReduceBody.t)
| CallSavePurchase (b : PurchaseBody.t).

Definition handle (castObjectId : string -> option ObjectId) (e : env)
    (c : call) (s : db) : response * db :=
  match c with
  | CallSignup b => signup e b s
  | CallLogin b => login b s
  | CallGetUsers => getUsers s
  | CallDelete path => serveDelete castObjectId path s
  | CallAddProduct b => addProduct e b s
  | CallGetProducts => getProducts s
  | CallGetPurchases => getPurchases s
  | CallUpdateProduct id b => updateProduct castObjectId id b s
  | CallUpdateQuantity id b => updateQuantity id b s
  | CallSavePurchase b => savePurchase e b s
  end.

(** The stores the server gets to from the empty database. *)
Inductive reachable (castObjectId : string -> option ObjectId) : db -> Prop :=
| reachable_empty : reachable castObjectId empty_db
| reachable_step (e : env) (c : call) (s : db) :
    reachable castObjectId s ->
    reachable castObjectId (snd (handle castObjectId e c s)).

(** The calls whose handlers write to the Product collection. *)
Definition touches_products (c : call) : bool :=
  match c with
  | CallDelete _ | CallAddProduct _ | CallUpdateProduct _ _
  | CallUpdateQuantity _ _ => true
  | _ => false
  end.

(** The part of a key before its first dot: Mongoose reads a dotted key as
    the path it spells. *)
Fixpoint root (k : string) : string :=
  match k with
  | EmptyString => EmptyString
  | String c k' => if Ascii.eqb c "." then EmptyString else String c (root k')
  end.

(** The paths of [purchaseSchema], the two Mongoose adds included. *)
Definition purchasePaths : list string :=
  ["_id"; "customer"; "products"; "total"; "date"; "__v"].

(** The keys of [o] are no path of the purchase schema, nor inside one. *)
Definition outside_schema (o : object) : Prop :=
  forall k v, In (k, v) o -> ~ In (root k) purchasePaths.


(** No product is in stock with a negative quantity. *)
Definition nonnegative_stock (c : list Product.doc) : Prop :=
  Forall (fun p => (0 <= Product.quantity p)%Z) c.

(** ** What the properties speak of *)

(** MongoDB keeps [_id] unique within a collection. *)
Definition unique_ids {D} `{Schema D} (c : list D) : Prop :=
  NoDup (map id_of c).

(** [p] is the first document of [c] the filter accepts. *)
Definition first_match {D} (filter : D -> Prop) (c before : list D) (p : D)
    (after : list D) : Prop :=
  c = before ++ p :: after /\ filter p /\ forall x, In x before -> ~ filter x.


(** The invariant of the store: identifiers are unique in each collection,
    and so are the keys under a [unique: true] index. *)
Definition wf_db (s : db) : Prop :=
  unique_ids (users s) /\
  NoDup (map User.username (users s)) /\
  NoDup (map User.email (users s)) /\
  unique_ids (products s) /\
  NoDup (map Product.product_id (products s)) /\
  unique_ids (purchases s).

(** The store with the business keys of its products rewritten by [g]. *)
Definition set_product_id (k : string) (p : Product.doc) : Product.doc :=
  Product.mk (Product._id p) k (Product.name p) (Product.type p)
    (Product.price p) (Product.purchasePrice p) (Product.quantity p)
    (Product.rack p).

Definition relabel (g : Product.doc -> string) (s : db) : db :=
  set_products s (map (fun p => set_product_id (g p) p) (products s)).

(** The pattern both delete handlers are registered on. *)
Definition deletePattern : list segment :=
  [Lit "api"; Lit "products"; Param "id"].

(** ** A cast and a database to run the handlers on *)

Definition hex_digit (c : ascii) : option N :=
  let n := N_of_ascii c in
  if (48 <=? n)%N && (n <=? 57)%N then Some (n - 48)%N
  else if (97 <=? n)%N && (n <=? 102)%N then Some (n - 87)%N
  else if (65 <=? n)%N && (n <=? 70)%N then Some (n - 55)%N
  else None.

Fixpoint hex_value (acc : N) (s : string) : option N :=
  match s with
  | EmptyString => Some acc
  | String c s' =>
      match hex_digit c with
      | Some d => hex_value (16 * acc + d)%N s'
      | None => None
      end
  end.

(** The strings of 24 hexadecimal digits. *)
Definition hexObjectId (s : string) : option ObjectId :=
  if (String.length s =? 24)%nat then hex_value 0%N s else None.

Module Sample.
Definition soap : Product.doc :=
  Product.mk 1%N "P001" "Soap" (Some "Bath") 30%Z 22%Z 10%Z (Some "A1").
Definition rice : Product.doc :=
  Product.mk 2%N "P002" "Rice" None 60%Z 0%Z 4%Z None.
Definition asha : User.doc :=
  User.mk 7%N "asha" "asha@example.com" "Secret" "9000000001".

Definition store : db := mkdb [asha] [soap; rice] [].

Definition soap_id : string := "000000000000000000000001".
Definition absent_id : string := "0000000000000000000000ff".

Definition e : env := mkenv 9%N 1700000000000%Z.

Definition ravi_body : SignupBody.t :=
  SignupBody.mk "ravi" "ravi@example.com" (Some "pw1") (Some "9000000002").
Definition ravi : User.doc :=
  User.mk 9%N "ravi" "ravi@example.com" "pw1" "9000000002".

Definition salt_body : ProductBody.t :=
  ProductBody.mk (Some "P003") (Some "Salt") None (Some 20%Z) None
    (Some 50%Z) (Some "B2").
Definition salt : Product.doc :=
  Product.mk 9%N "P003" "Salt" None 20%Z 0%Z 50%Z (Some "B2").

(** A body that carries a new name and nothing else. *)
Definition rename_body : ProductBody.t :=
  ProductBody.mk None (Some "Soap bar") None None None None None.

Definition customer : Customer.t :=
  Customer.mk (Some "Mani") (Some "Erode") None None.
Definition items : list json :=
  [JObj [("product_id", JStr "P001"); ("quantity", JNum 2)]].
End Sample.

(** ** Lists: the first match *)

Section FirstMatch.
Context {D : Type}.
Variable filter : D -> bool.

Lemma find_first (before : list D) (p : D) (after : list D) :
  (forall x, In x before -> filter x = false) ->
  filter p = true ->
  find filter (before ++ p :: after) = Some p.
Proof.
  intros Hb Hp. induction before as [|x before IH]; simpl.
  - now rewrite Hp.
  - rewrite (Hb x (or_introl eq_refl)). apply IH.
    intros y Hy. apply Hb. now right.
Qed.

Lemma find_absent (c : list D) :
  (forall x, In x c -> filter x = false) -> find filter c = None.
Proof.
  intros Hc. destruct (find filter c) as [x|] eqn:E; [|reflexivity].
  apply find_some in E. destruct E as [Hin Hx].
  rewrite (Hc x Hin) in Hx. discriminate.
Qed.

Lemma find_split (c : list D) (p : D) :
  find filter c = Some p ->
  exists before after,
    c = before ++ p :: after /\ filter p = true /\
    forall x, In x before -> filter x = false.
Proof.
  induction c as [|x c IH]; simpl; [discriminate|].
  destruct (filter x) eqn:E.
  - intros [= <-]. exists [], c. repeat split; auto. intros y [].
  - intros Hf. destruct (IH Hf) as (before & after & -> & Hp & Hb).
    exists (x :: before), after. repeat split; auto.
    intros y [<-|Hy]; auto.
Qed.

Lemma updateOne_first (f : D -> D) (before : list D) (p : D)
    (after : list D) :
  (forall x, In x before -> filter x = false) ->
  filter p = true ->
  updateOne filter f (before ++ p :: after) = before ++ f p :: after.
Proof.
  intros Hb Hp. induction before as [|x before IH]; simpl.
  - now rewrite Hp.
  - rewrite (Hb x (or_introl eq_refl)). f_equal. apply IH.
    intros y Hy. apply Hb. now right.
Qed.

Lemma deleteOne_first (before : list D) (p : D)
    (after : list D) :
  (forall x, In x before -> filter x = false) ->
  filter p = true ->
  deleteOne filter (before ++ p :: after) = before ++ after.
Proof.
  intros Hb Hp. induction before as [|x before IH]; simpl.
  - now rewrite Hp.
  - rewrite (Hb x (or_introl eq_refl)). f_equal. apply IH.
    intros y Hy. apply Hb. now right.
Qed.

End FirstMatch.

Lemma has_id_true {D} `{Schema D} (oid : ObjectId) (d : D) :
  has_id oid d = true <-> id_of d = oid.
Proof. unfold has_id. apply N.eqb_eq. Qed.

Lemma has_id_false {D} `{Schema D} (oid : ObjectId) (d : D) :
  has_id oid d = false <-> id_of d <> oid.
Proof. unfold has_id. apply N.eqb_neq. Qed.



(** ** Numbers *)




Lemma round_double_nonneg (z : Z) : (0 <= z)%Z -> (0 <= round_double z)%Z.
Proof.
  intros Hz. unfold round_double. cbv zeta.
  destruct (Z.log2 (Z.abs z) - 52 <=? 0)%Z eqn:He; [exact Hz|].
  apply Z.leb_gt in He.
  assert (Hu : (0 < 2 ^ (Z.log2 (Z.abs z) - 52))%Z)
    by (apply Z.pow_pos_nonneg; lia).
  assert (Hq : (0 <= Z.abs z / 2 ^ (Z.log2 (Z.abs z) - 52))%Z)
    by (apply Z.div_pos; lia).
  apply Z.mul_nonneg_nonneg; [lia|].
  apply Z.mul_nonneg_nonneg; [|lia].
  destruct (_ <? _)%Z; [exact Hq|].
  destruct (_ <? _)%Z; [lia|].
  destruct (Z.even _); lia.
Qed.

(** ** Reducing a quantity *)


(** What [save()] has checked when it has written. *)
Lemma saveQuantity_inv (p : Product.doc) (v : option Z)
    (c c' : list Product.doc) :
  saveQuantity p v c = Ok c' ->
  exists q,
    v = Some q /\
    Product.product_id p <> "" /\ Product.name p <> "" /\
    c' = updateOne (has_id (Product._id p)) (set_quantity q) c.
Proof.
  unfold saveQuantity, required_string.
  destruct v as [q|]; [|discriminate]. cbn [castNumber bind].
  destruct (Product.product_id p =? "") eqn:Hk; [discriminate|].
  destruct (Product.name p =? "") eqn:Hn; [discriminate|]. cbn [bind].
  destruct (existsb _ c); [|discriminate]. intros [= <-].
  exists q. repeat split; now apply String.eqb_neq.
Qed.











(** ** Deleting a product *)

Section Delete.
Variable castObjectId : string -> option ObjectId.

Lemma dispatch_delete (path : list string) :
  dispatch DELETE path
  = option_map (pair DeleteProductById) (match_path deletePattern path).
Proof.
  cbv [dispatch dispatch_in routes method_eqb].
  fold deletePattern.
  now destruct (match_path deletePattern path).
Qed.

Lemma dispatch_never_by_product_id (m : method) (path : list string)
    (params : list (string * string)) :
  dispatch m path <> Some (DeleteProductByProductId, params).
Proof.
  destruct m.
  4: { rewrite dispatch_delete.
       destruct (match_path deletePattern path); discriminate. }
  all: cbv [dispatch dispatch_in routes method_eqb];
    repeat match goal with
           | |- context [match_path ?pat ?x] =>
               destruct (match_path pat x)
           end; discriminate.
Qed.

Lemma serveDelete_routed (path : list string) (s : db) :
  serveDelete castObjectId path s
  = match match_path deletePattern path with
    | Some params => deleteProductById castObjectId (param "id" params) s
    | None => (notRouted, s)
    end.
Proof.
  unfold serveDelete. rewrite dispatch_delete.
  now destruct (match_path deletePattern path).
Qed.

Lemma deleteProductById_malformed (id : string) (s : db) :
  castObjectId id = None ->
  deleteProductById castObjectId id s
  = (res 500 (message "message" "Server error"), s).
Proof.
  intros Hc. unfold deleteProductById, findByIdAndDelete, castId.
  now rewrite Hc.
Qed.

Lemma deleteProductById_absent (id : string) (oid : ObjectId) (s : db) :
  castObjectId id = Some oid ->
  (forall p, In p (products s) -> Product._id p <> oid) ->
  deleteProductById castObjectId id s
  = (res 404 (message "message" "Product not found"), s).
Proof.
  intros Hc Hno.
  unfold deleteProductById, findByIdAndDelete, castId, findOneAndDelete, findOne.
  rewrite Hc. simpl. rewrite find_absent; [reflexivity|].
  intros p Hp. apply has_id_false. now apply Hno.
Qed.

Lemma deleteProductById_found (id : string) (oid : ObjectId) (s : db)
    (before : list Product.doc) (p : Product.doc) (after : list Product.doc) :
  castObjectId id = Some oid ->
  first_match (fun x => Product._id x = oid) (products s) before p after ->
  deleteProductById castObjectId id s
  = (res 200 (message "message" "Product deleted successfully"),
     mkdb (users s) (before ++ after) (purchases s)).
Proof.
  intros Hc (Hs & Hp & Hb).
  assert (Hb' : forall x, In x before -> has_id oid x = false).
  { intros x Hx. apply has_id_false. now apply Hb. }
  assert (Hp' : has_id oid p = true) by now apply has_id_true.
  unfold deleteProductById, findByIdAndDelete, castId, findOneAndDelete, findOne.
  rewrite Hc, Hs. simpl.
  rewrite (find_first _ before p after Hb' Hp').
  now rewrite (deleteOne_first _ before p after Hb' Hp').
Qed.

Lemma find_relabel (g : Product.doc -> string) (oid : ObjectId)
    (c : list Product.doc) :
  find (has_id oid) (map (fun p => set_product_id (g p) p) c)
  = option_map (fun p => set_product_id (g p) p) (find (has_id oid) c).
Proof.
  induction c as [|x c IH]; simpl; [reflexivity|].
  change (has_id oid (set_product_id (g x) x)) with (has_id oid x).
  now destruct (has_id oid x).
Qed.

Lemma deleteOne_relabel (g : Product.doc -> string) (oid : ObjectId)
    (c : list Product.doc) :
  deleteOne (has_id oid) (map (fun p => set_product_id (g p) p) c)
  = map (fun p => set_product_id (g p) p) (deleteOne (has_id oid) c).
Proof.
  induction c as [|x c IH]; simpl; [reflexivity|].
  change (has_id oid (set_product_id (g x) x)) with (has_id oid x).
  destruct (has_id oid x); simpl; [reflexivity|]. now rewrite IH.
Qed.

Lemma deleteProductById_relabel (g : Product.doc -> string) (id : string)
    (s : db) :
  deleteProductById castObjectId id (relabel g s)
  = (fst (deleteProductById castObjectId id s),
     relabel g (snd (deleteProductById castObjectId id s))).
Proof.
  unfold deleteProductById, findByIdAndDelete, castId, findOneAndDelete, findOne.
  destruct (castObjectId id) as [oid|]; simpl; [|reflexivity].
  rewrite find_relabel, deleteOne_relabel.
  destruct (find (has_id oid) (products s)); reflexivity.
Qed.

End Delete.

(** C2. Two handlers are registered on [DELETE /api/products/:id], the one
    by internal identifier before the one by [product_id]; the router never
    selects the second; every request the pattern matches is answered by
    the first, which decides by casting the path parameter and comparing it
    with [_id] (500 when it is no identifier, 404 when no document carries
    it, 200 and that document removed otherwise); and rewriting the
    [product_id] of the stored products at will changes neither the answer
    nor which document goes. *)
Theorem delete_resolves_by_internal_identifier :
  nth_error routes 3 = Some (DELETE, deletePattern, DeleteProductById) /\
  nth_error routes 9 = Some (DELETE, deletePattern, DeleteProductByProductId) /\
  (forall m path params,
     dispatch m path <> Some (DeleteProductByProductId, params)) /\
  (forall cast path params s,
     match_path deletePattern path = Some params ->
     serveDelete cast path s = deleteProductById cast (param "id" params) s) /\
  (forall cast id s,
     (cast id = None ->
      deleteProductById cast id s
      = (res 500 (message "message" "Server error"), s)) /\
     (forall oid,
        cast id = Some oid ->
        ((forall p, In p (products s) -> Product._id p <> oid) ->
         deleteProductById cast id s
         = (res 404 (message "message" "Product not found"), s)) /\
        (forall before p after,
           first_match (fun x => Product._id x = oid) (products s)
             before p after ->
           deleteProductById cast id s
           = (res 200 (message "message" "Product deleted successfully"),
              mkdb (users s) (before ++ after) (purchases s))))) /\
  (forall cast path g s,
     serveDelete cast path (relabel g s)
     = (fst (serveDelete cast path s), relabel g (snd (serveDelete cast path s)))).
Proof.
  split; [reflexivity|]. split; [reflexivity|].
  split; [exact dispatch_never_by_product_id|].
  split; [|split].
  - intros cast path params s Hm. now rewrite serveDelete_routed, Hm.
  - intros cast id s. split.
    + now apply deleteProductById_malformed.
    + intros oid Hc. split.
      * now apply deleteProductById_absent.
      * intros before p after. now apply deleteProductById_found.
  - intros cast path g s. rewrite !serveDelete_routed.
    destruct (match_path deletePattern path); [|reflexivity].
    apply deleteProductById_relabel.
Qed.

Lemma delete_resolves_by_internal_identifier_witness :
  serveDelete hexObjectId ["api"; "products"; Sample.soap_id] Sample.store
  = (res 200 (message "message" "Product deleted successfully"),
     mkdb [Sample.asha] [Sample.rice] []) /\
  serveDelete hexObjectId ["api"; "products"; Sample.absent_id] Sample.store
  = (res 404 (message "message" "Product not found"), Sample.store) /\
  serveDelete hexObjectId ["api"; "products"; "P001"] Sample.store
  = (res 500 (message "message" "Server error"), Sample.store).
Proof.
  destruct delete_resolves_by_internal_identifier
    as (_ & _ & _ & Hroute & Hby_id & _).
  split; [|split].
  - rewrite (Hroute hexObjectId ["api"; "products"; Sample.soap_id]
               [("id", Sample.soap_id)] Sample.store eq_refl).
    destruct (Hby_id hexObjectId Sample.soap_id Sample.store) as (_ & Hcast).
    destruct (Hcast 1%N eq_refl) as (_ & Hfound).
    apply (Hfound [] Sample.soap [Sample.rice]).
    repeat split. intros x [].
  - rewrite (Hroute hexObjectId ["api"; "products"; Sample.absent_id]
               [("id", Sample.absent_id)] Sample.store eq_refl).
    destruct (Hby_id hexObjectId Sample.absent_id Sample.store) as (_ & Hcast).
    destruct (Hcast 255%N eq_refl) as (Habsent & _).
    apply Habsent. simpl. intros p [<-|[<-|[]]]; discriminate.
  - rewrite (Hroute hexObjectId ["api"; "products"; "P001"]
               [("id", "P001")] Sample.store eq_refl).
    destruct (Hby_id hexObjectId "P001" Sample.store) as (Hmalformed & _).
    now apply Hmalformed.
Defined.

(** The handler by [product_id] would have answered otherwise: the two
    handlers on the one pattern are not interchangeable. *)
Example delete_handlers_differ :
  deleteProductByProductId "P001" Sample.store
  = (res 200 (message "message" "Product removed successfully"),
     mkdb [Sample.asha] [Sample.rice] []) /\
  serveDelete hexObjectId ["api"; "products"; "P001"] Sample.store
  = (res 500 (message "message" "Server error"), Sample.store).
Proof. split; reflexivity. Qed.

(** ** Signing up and logging in *)

Lemma find_present {D} (filter : D -> bool) (c : list D) (x : D) :
  In x c -> filter x = true -> exists y, find filter c = Some y.
Proof.
  intros Hin Hx. destruct (find filter c) as [y|] eqn:E; [now exists y|].
  rewrite (find_none _ _ E x Hin) in Hx. discriminate.
Qed.

Lemma existsb_absent {D} (filter : D -> bool) (c : list D) :
  (forall x, In x c -> filter x = false) -> existsb filter c = false.
Proof.
  intros Hc. destruct (existsb filter c) eqn:E; [|reflexivity].
  apply existsb_exists in E. destruct E as (x & Hin & Hx).
  rewrite (Hc x Hin) in Hx. discriminate.
Qed.

Lemma required_string_ok (v : string) :
  v <> "" -> required_string (Some v) = Ok v.
Proof.
  intros Hv. unfold required_string.
  apply String.eqb_neq in Hv. now rewrite Hv.
Qed.

Lemma signup_conflict (e : env) (b : SignupBody.t) (s : db) :
  (exists u, In u (users s) /\
             (User.username u = SignupBody.username b \/
              User.email u = SignupBody.email b)) ->
  signup e b s = (res 400 (message "message" "User already exists"), s).
Proof.
  intros (u & Hin & Hu). unfold signup, findOne.
  destruct (find_present
              (fun u => (User.email u =? SignupBody.email b)
                        || (User.username u =? SignupBody.username b))
              (users s) u Hin) as (y & ->); [|reflexivity].
  apply orb_true_iff. destruct Hu as [Hu|Hu]; [right|left];
    now apply String.eqb_eq.
Qed.

Lemma signup_fresh (e : env) (b : SignupBody.t) (s : db)
    (password phone : string) :
  (forall u, In u (users s) ->
     User.username u <> SignupBody.username b /\
     User.email u <> SignupBody.email b /\
     User._id u <> new_id e) ->
  SignupBody.password b = Some password ->
  SignupBody.phone b = Some phone ->
  SignupBody.username b <> "" -> SignupBody.email b <> "" ->
  password <> "" -> phone <> "" ->
  signup e b s
  = (res 201 (message "message" "Signup successful"),
     mkdb (users s ++ [User.mk (new_id e) (SignupBody.username b)
                         (SignupBody.email b) password phone])
       (products s) (purchases s)).
Proof.
  intros Hnew Hpw Hph Hu He Hp Hq. unfold signup, findOne.
  rewrite find_absent.
  2: { intros u Hin. destruct (Hnew u Hin) as (Hn & Hm & _).
       apply orb_false_iff. split; now apply String.eqb_neq. }
  unfold validateUser. rewrite Hpw, Hph.
  rewrite !required_string_ok by assumption. simpl.
  unfold insertOne. rewrite existsb_absent; [reflexivity|].
  intros u Hin. destruct (Hnew u Hin) as (Hn & Hm & Hi). simpl.
  apply orb_false_iff. split; [now apply N.eqb_neq|].
  apply orb_false_iff. split; now apply String.eqb_neq.
Qed.

(** A signup answered 201 has appended the submitted record. *)
Lemma signup_created (e : env) (b : SignupBody.t) (s : db) :
  status (fst (signup e b s)) = 201%Z ->
  exists password phone,
    snd (signup e b s)
    = mkdb (users s ++ [User.mk (new_id e) (SignupBody.username b)
                          (SignupBody.email b) password phone])
        (products s) (purchases s).
Proof.
  unfold signup, findOne, validateUser, required_string, insertOne.
  destruct (find _ (users s)); simpl; [discriminate|].
  destruct (SignupBody.username b =? ""); simpl; [discriminate|].
  destruct (SignupBody.email b =? ""); simpl; [discriminate|].
  destruct (SignupBody.password b) as [pw|]; simpl; [|discriminate].
  destruct (pw =? ""); simpl; [discriminate|].
  destruct (SignupBody.phone b) as [ph|]; simpl; [|discriminate].
  destruct (ph =? ""); simpl; [discriminate|].
  destruct (existsb _ (users s)); simpl; [discriminate|].
  intros _. now exists pw, ph.
Qed.

(** A signup answered 400 found a stored user with the username or the
    email. *)
Lemma signup_rejected (e : env) (b : SignupBody.t) (s : db) :
  status (fst (signup e b s)) = 400%Z ->
  snd (signup e b s) = s /\
  exists u, In u (users s) /\
            (User.username u = SignupBody.username b \/
             User.email u = SignupBody.email b).
Proof.
  unfold signup, findOne.
  destruct (find _ (users s)) as [u|] eqn:E; simpl.
  - intros _. split; [reflexivity|]. apply find_some in E.
    destruct E as (Hin & Hu). exists u. split; [exact Hin|].
    apply orb_true_iff in Hu. destruct Hu as [Hu|Hu]; [right|left];
      now apply String.eqb_eq.
  - destruct (validateUser _ _ _ _ _); simpl; [|discriminate].
    destruct (insertOne _ _); simpl; discriminate.
Qed.

(** C3. Signup ([POST /api/signup]): when a stored user has the submitted
    username or the submitted email the answer is 400 "User already exists"
    and nothing is stored; when none has, the four fields are non-empty
    strings and the identifier drawn is new, exactly the record
    {username, email, password, phone} is appended and the answer is 201;
    after a signup answered 201, any signup with the same username or the
    same email is answered 400 and stores nothing; and a signup answered 400
    is answered 400 again when repeated with that username and email. *)
Theorem signup_spec (e : env) (b : SignupBody.t) (s : db) :
  ((exists u, In u (users s) /\
              (User.username u = SignupBody.username b \/
               User.email u = SignupBody.email b)) ->
   signup e b s = (res 400 (message "message" "User already exists"), s)) /\
  (forall password phone,
     (forall u, In u (users s) ->
        User.username u <> SignupBody.username b /\
        User.email u <> SignupBody.email b /\
        User._id u <> new_id e) ->
     SignupBody.password b = Some password ->
     SignupBody.phone b = Some phone ->
     SignupBody.username b <> "" -> SignupBody.email b <> "" ->
     password <> "" -> phone <> "" ->
     signup e b s
     = (res 201 (message "message" "Signup successful"),
        mkdb (users s ++ [User.mk (new_id e) (SignupBody.username b)
                            (SignupBody.email b) password phone])
          (products s) (purchases s))) /\
  (forall e' b',
     status (fst (signup e b s)) = 201%Z ->
     SignupBody.username b' = SignupBody.username b \/
     SignupBody.email b' = SignupBody.email b ->
     signup e' b' (snd (signup e b s))
     = (res 400 (message "message" "User already exists"),
        snd (signup e b s))) /\
  (forall e' b',
     status (fst (signup e b s)) = 400%Z ->
     SignupBody.username b' = SignupBody.username b ->
     SignupBody.email b' = SignupBody.email b ->
     signup e' b' (snd (signup e b s))
     = (res 400 (message "message" "User already exists"),
        snd (signup e b s))).
Proof.
  split; [apply signup_conflict|]. split; [apply signup_fresh|]. split.
  - intros e' b' H201 Hsame.
    destruct (signup_created e b s H201) as (pw & ph & ->).
    apply signup_conflict.
    exists (User.mk (new_id e) (SignupBody.username b) (SignupBody.email b)
              pw ph).
    split.
    + simpl. apply in_or_app. right. now left.
    + simpl. destruct Hsame as [->| ->]; auto.
  - intros e' b' H400 Hu He.
    destruct (signup_rejected e b s H400) as (-> & u & Hin & Hm).
    apply signup_conflict. exists u. split; [exact Hin|].
    now rewrite Hu, He.
Qed.

Lemma signup_spec_witness :
  signup Sample.e Sample.ravi_body Sample.store
  = (res 201 (message "message" "Signup successful"),
     mkdb [Sample.asha; Sample.ravi] [Sample.soap; Sample.rice] []) /\
  signup Sample.e
    (SignupBody.mk "ravi" "other@example.com" (Some "pw2") (Some "9000000003"))
    (snd (signup Sample.e Sample.ravi_body Sample.store))
  = (res 400 (message "message" "User already exists"),
     snd (signup Sample.e Sample.ravi_body Sample.store)) /\
  signup Sample.e
    (SignupBody.mk "asha2" "asha@example.com" (Some "x") (Some "1"))
    Sample.store
  = (res 400 (message "message" "User already exists"), Sample.store).
Proof.
  destruct (signup_spec Sample.e Sample.ravi_body Sample.store)
    as (_ & Hfresh & Htwice & _).
  split; [|split].
  - apply (Hfresh "pw1" "9000000002"); try reflexivity; try discriminate.
    simpl. intros u [<-|[]]. repeat split; discriminate.
  - apply Htwice; [reflexivity|]. now left.
  - destruct (signup_spec Sample.e
                (SignupBody.mk "asha2" "asha@example.com" (Some "x") (Some "1"))
                Sample.store) as (Hconflict & _).
    apply Hconflict. exists Sample.asha. split; [now left|]. now right.
Defined.

(** Against C3 as the specification words it: no stored user has the username or the
    email, and the signup, whose password is the empty string, is answered
    500 and stores nothing. *)
Lemma signup_spec_counterexample :
  (forall u, In u (users Sample.store) ->
     User.username u <> "ravi" /\ User.email u <> "ravi@example.com") /\
  signup Sample.e
    (SignupBody.mk "ravi" "ravi@example.com" (Some "") (Some "9000000002"))
    Sample.store
  = (res 500 (message "error" "Signup failed"), Sample.store).
Proof.
  split; [|reflexivity].
  simpl. intros u [<-|[]]. split; discriminate.
Qed.

Lemma login_unchanged (b : LoginBody.t) (s : db) : snd (login b s) = s.
Proof.
  unfold login, findOne.
  destruct (find _ (users s)) as [u|]; simpl; [|reflexivity].
  destruct (LoginBody.password b) as [pw|]; simpl; [|reflexivity].
  now destruct (User.password u =? pw).
Qed.

Lemma login_absent (b : LoginBody.t) (s : db) :
  (forall u, In u (users s) -> User.username u <> LoginBody.username b) ->
  fst (login b s) = res 400 (message "message" "User not found").
Proof.
  intros Hno. unfold login, findOne. rewrite find_absent; [reflexivity|].
  intros u Hin. apply String.eqb_neq. now apply Hno.
Qed.

Lemma login_found (b : LoginBody.t) (s : db) (before : list User.doc)
    (u : User.doc) (after : list User.doc) :
  first_match (fun x => User.username x = LoginBody.username b) (users s)
    before u after ->
  (LoginBody.password b = Some (User.password u) ->
   fst (login b s) = res 200 (message "message" "Login successful")) /\
  (LoginBody.password b <> Some (User.password u) ->
   fst (login b s) = res 401 (message "message" "Invalid credentials")).
Proof.
  intros (Hs & Hu & Hb). unfold login, findOne. rewrite Hs, find_first.
  - split.
    + intros ->. now rewrite String.eqb_refl.
    + intros Hne. destruct (LoginBody.password b) as [pw|]; [|reflexivity].
      destruct (User.password u =? pw) eqn:E; [|reflexivity].
      apply String.eqb_eq in E. now subst.
  - intros x Hx. apply String.eqb_neq. now apply Hb.
  - now apply String.eqb_eq.
Qed.

Lemma login_success (b : LoginBody.t) (s : db) :
  status (fst (login b s)) = 200%Z <->
  exists before u after,
    first_match (fun x => User.username x = LoginBody.username b) (users s)
      before u after /\
    LoginBody.password b = Some (User.password u).
Proof.
  split.
  - unfold login, findOne.
    destruct (find _ (users s)) as [u|] eqn:E; simpl; [|discriminate].
    destruct (find_split _ _ _ E) as (before & after & Hs & Hu & Hb).
    destruct (LoginBody.password b) as [pw|]; simpl; [|discriminate].
    destruct (User.password u =? pw) eqn:Hpw; simpl; [|discriminate].
    apply String.eqb_eq in Hpw. intros _.
    exists before, u, after. split; [|now subst].
    split; [exact Hs|]. split; [now apply String.eqb_eq|].
    intros x Hx. apply String.eqb_neq. now apply Hb.
  - intros (before & u & after & Hm & Hpw).
    destruct (login_found b s before u after Hm) as (Hok & _).
    now rewrite (Hok Hpw).
Qed.

(** With unique keys, a document of the collection is the first match of
    its own key. *)
Lemma first_match_of_unique {D K} (key : D -> K) (c : list D) (u : D) :
  NoDup (map key c) -> In u c ->
  exists before after,
    first_match (fun x => key x = key u) c before u after.
Proof.
  intros Hnd Hin. destruct (in_split u c Hin) as (before & after & ->).
  exists before, after. repeat split.
  intros x Hx Heq. rewrite map_app in Hnd. simpl in Hnd.
  apply NoDup_remove_2 in Hnd. apply Hnd.
  apply in_or_app. left. rewrite <- Heq. now apply in_map.
Qed.

(** C4. Login ([POST /api/login]) never modifies the store; it answers 400
    "User not found" when no record has the username, 200 when the record
    found stores exactly the submitted password and 401 "Invalid
    credentials" when it stores another one; it answers 200 if and only if
    the first record with that username stores, as its password, the very
    string submitted, which with usernames unique is: if and only if some
    record has that username and that password. *)
Theorem login_spec (b : LoginBody.t) (s : db) :
  snd (login b s) = s /\
  ((forall u, In u (users s) -> User.username u <> LoginBody.username b) ->
   fst (login b s) = res 400 (message "message" "User not found")) /\
  (forall before u after,
     first_match (fun x => User.username x = LoginBody.username b) (users s)
       before u after ->
     (LoginBody.password b = Some (User.password u) ->
      fst (login b s) = res 200 (message "message" "Login successful")) /\
     (LoginBody.password b <> Some (User.password u) ->
      fst (login b s) = res 401 (message "message" "Invalid credentials"))) /\
  (status (fst (login b s)) = 200%Z <->
   exists before u after,
     first_match (fun x => User.username x = LoginBody.username b) (users s)
       before u after /\
     LoginBody.password b = Some (User.password u)) /\
  (NoDup (map User.username (users s)) ->
   (status (fst (login b s)) = 200%Z <->
    exists u, In u (users s) /\
              User.username u = LoginBody.username b /\
              LoginBody.password b = Some (User.password u))).
Proof.
  split; [apply login_unchanged|]. split; [apply login_absent|].
  split; [apply login_found|]. split; [apply login_success|].
  intros Hnd. split.
  - unfold login, findOne.
    destruct (find _ (users s)) as [u|] eqn:E; simpl; [|discriminate].
    apply find_some in E. destruct E as (Hin & Hu).
    apply String.eqb_eq in Hu.
    destruct (LoginBody.password b) as [pw|]; simpl; [|discriminate].
    destruct (User.password u =? pw) eqn:Hpw; simpl; [|discriminate].
    apply String.eqb_eq in Hpw. intros _. exists u. now subst.
  - intros (u & Hin & Hu & Hpw).
    destruct (first_match_of_unique User.username (users s) u Hnd Hin)
      as (before & after & Hm).
    rewrite Hu in Hm.
    destruct (login_found b s before u after Hm) as (Hok & _).
    now rewrite (Hok Hpw).
Qed.

Lemma login_spec_witness :
  login (LoginBody.mk "asha" (Some "Secret")) Sample.store
  = (res 200 (message "message" "Login successful"), Sample.store) /\
  fst (login (LoginBody.mk "asha" (Some "secret")) Sample.store)
  = res 401 (message "message" "Invalid credentials") /\
  fst (login (LoginBody.mk "nobody" (Some "Secret")) Sample.store)
  = res 400 (message "message" "User not found") /\
  status (fst (login (LoginBody.mk "asha" (Some "Secret")) Sample.store))
  = 200%Z.
Proof.
  assert (Hm : forall pw,
             first_match
               (fun x => User.username x
                         = LoginBody.username (LoginBody.mk "asha" pw))
               (users Sample.store) [] Sample.asha []).
  { intros pw. repeat split. intros x []. }
  split; [|split; [|split]].
  - destruct (login_spec (LoginBody.mk "asha" (Some "Secret")) Sample.store)
      as (Hsame & _ & Hfound & _).
    destruct (Hfound [] Sample.asha [] (Hm _)) as (Hok & _).
    apply injective_projections; [now apply Hok | exact Hsame].
  - destruct (login_spec (LoginBody.mk "asha" (Some "secret")) Sample.store)
      as (_ & _ & Hfound & _).
    destruct (Hfound [] Sample.asha [] (Hm _)) as (_ & Hbad).
    apply Hbad. discriminate.
  - destruct (login_spec (LoginBody.mk "nobody" (Some "Secret")) Sample.store)
      as (_ & Habsent & _).
    apply Habsent. simpl. intros u [<-|[]]. discriminate.
  - destruct (login_spec (LoginBody.mk "asha" (Some "Secret")) Sample.store)
      as (_ & _ & _ & _ & Hiff).
    apply Hiff.
    + simpl. repeat constructor. intros [].
    + exists Sample.asha. repeat split. now left.
Defined.

(** ** Listing the users *)

Lemma getUsers_document (u : User.doc) :
  exclude ["password"] (toJSON u)
  = [("_id", JId (User._id u));
     ("username", JStr (User.username u));
     ("email", JStr (User.email u));
     ("phone", JStr (User.phone u));
     ("__v", JNum 0)].
Proof. reflexivity. Qed.

(** C7. List users ([GET /api/users]) answers 200 with one document per
    stored user, in order; no returned document has a [password] field, and
    each carries the [username], [email] and [phone] (and the [_id]) of the
    user it stands for; the store is unchanged. *)
Theorem getUsers_spec (s : db) :
  exists docs,
    getUsers s = (res 200 (JArr docs), s) /\
    List.length docs = List.length (users s) /\
    (forall d, In d docs ->
       exists o, d = JObj o /\ lookup "password" o = None) /\
    (forall i u,
       nth_error (users s) i = Some u ->
       exists o,
         nth_error docs i = Some (JObj o) /\
         lookup "password" o = None /\
         lookup "_id" o = Some (JId (User._id u)) /\
         lookup "username" o = Some (JStr (User.username u)) /\
         lookup "email" o = Some (JStr (User.email u)) /\
         lookup "phone" o = Some (JStr (User.phone u))).
Proof.
  exists (findAll ["password"] (users s)). unfold getUsers, findAll. simpl.
  split; [reflexivity|]. split; [apply length_map|]. split.
  - intros d Hd. apply in_map_iff in Hd. destruct Hd as (u & <- & _).
    exists (exclude ["password"] (toJSON u)). split; reflexivity.
  - intros i u Hi. exists (exclude ["password"] (toJSON u)).
    split; [|repeat split].
    rewrite nth_error_map, Hi. reflexivity.
Qed.

Lemma getUsers_spec_witness :
  exists docs o,
    getUsers Sample.store = (res 200 (JArr docs), Sample.store) /\
    nth_error docs 0 = Some (JObj o) /\
    lookup "password" o = None /\
    lookup "username" o = Some (JStr "asha") /\
    lookup "email" o = Some (JStr "asha@example.com") /\
    lookup "phone" o = Some (JStr "9000000001").
Proof.
  destruct (getUsers_spec Sample.store) as (docs & Heq & _ & _ & Hnth).
  destruct (Hnth 0%nat Sample.asha eq_refl)
    as (o & Ho & Hpw & _ & Hu & He & Hp).
  exists docs, o. repeat split; assumption.
Defined.

(** ** Adding a product *)

Lemma validateProduct_product_id (oid : ObjectId) (b : ProductBody.t)
    (d : Product.doc) :
  validateProduct oid b = Ok d ->
  ProductBody.product_id b = Some (Product.product_id d).
Proof.
  unfold validateProduct, required_string, required.
  destruct (ProductBody.product_id b) as [pid|]; simpl; [|discriminate].
  destruct (pid =? ""); simpl; [discriminate|].
  destruct (ProductBody.name b) as [n|]; simpl; [|discriminate].
  destruct (n =? ""); simpl; [discriminate|].
  destruct (ProductBody.price b); simpl; [|discriminate].
  destruct (ProductBody.quantity b); simpl; [|discriminate].
  now intros [= <-].
Qed.

Lemma addProduct_duplicate (e : env) (b : ProductBody.t) (s : db)
    (pid : string) :
  ProductBody.product_id b = Some pid ->
  (exists p, In p (products s) /\ Product.product_id p = pid) ->
  addProduct e b s = (res 500 (message "error" "Failed to add product"), s).
Proof.
  intros Hpid (p & Hin & Hp). unfold addProduct.
  destruct (validateProduct (new_id e) b) as [d|] eqn:V; [|reflexivity].
  apply validateProduct_product_id in V. rewrite Hpid in V.
  injection V as V. simpl. unfold insertOne.
  replace (existsb _ (products s)) with true; [reflexivity|].
  symmetry. apply existsb_exists. exists p. split; [exact Hin|].
  apply orb_true_iff. right. simpl. apply String.eqb_eq. congruence.
Qed.

Lemma addProduct_fresh (e : env) (b : ProductBody.t) (s : db)
    (pid n : string) (pr q : Z) :
  ProductBody.product_id b = Some pid -> ProductBody.name b = Some n ->
  ProductBody.price b = Some pr -> ProductBody.quantity b = Some q ->
  pid <> "" -> n <> "" ->
  (forall p, In p (products s) ->
     Product.product_id p <> pid /\ Product._id p <> new_id e) ->
  addProduct e b s
  = (res 201 (message "message" "Product added successfully"),
     mkdb (users s)
       (products s ++ [Product.mk (new_id e) pid n (ProductBody.type b) pr
                         (default 0%Z (ProductBody.purchasePrice b)) q
                         (ProductBody.rack b)])
       (purchases s)).
Proof.
  intros Hpid Hn Hpr Hq Hp0 Hn0 Hnew.
  unfold addProduct, validateProduct. rewrite Hpid, Hn, Hpr, Hq.
  rewrite !required_string_ok by assumption. simpl.
  unfold insertOne. rewrite existsb_absent; [reflexivity|].
  intros p Hin. destruct (Hnew p Hin) as (Hk & Hi). simpl.
  apply orb_false_iff. split; [now apply N.eqb_neq | now apply String.eqb_neq].
Qed.

(** C8. Add product ([POST /api/products]): a body whose [product_id] is
    that of a stored product is answered 500 and the store, hence the size
    of the product collection, is unchanged; a body with a non-empty
    [product_id] no stored product has, a non-empty [name], a [price] and a
    [quantity], for which a new identifier is drawn, stores exactly one new
    record at the end of the collection and is answered 201 with the
    acknowledgement message alone. *)
Theorem addProduct_spec (e : env) (b : ProductBody.t) (s : db) :
  (forall pid,
     ProductBody.product_id b = Some pid ->
     (exists p, In p (products s) /\ Product.product_id p = pid) ->
     addProduct e b s
     = (res 500 (message "error" "Failed to add product"), s) /\
     List.length (products (snd (addProduct e b s)))
     = List.length (products s)) /\
  (forall pid n pr q,
     ProductBody.product_id b = Some pid -> ProductBody.name b = Some n ->
     ProductBody.price b = Some pr -> ProductBody.quantity b = Some q ->
     pid <> "" -> n <> "" ->
     (forall p, In p (products s) ->
        Product.product_id p <> pid /\ Product._id p <> new_id e) ->
     addProduct e b s
     = (res 201 (JObj [("message", JStr "Product added successfully")]),
        mkdb (users s)
          (products s ++ [Product.mk (new_id e) pid n (ProductBody.type b) pr
                            (default 0%Z (ProductBody.purchasePrice b)) q
                            (ProductBody.rack b)])
          (purchases s)) /\
     List.length (products (snd (addProduct e b s)))
     = S (List.length (products s))).
Proof.
  split.
  - intros pid Hpid Hdup.
    rewrite (addProduct_duplicate e b s pid Hpid Hdup). now split.
  - intros pid n pr q Hpid Hn Hpr Hq Hp0 Hn0 Hnew.
    rewrite (addProduct_fresh e b s pid n pr q Hpid Hn Hpr Hq Hp0 Hn0 Hnew).
    split; [reflexivity|]. simpl. rewrite length_app. simpl. lia.
Qed.

Lemma addProduct_spec_witness :
  addProduct Sample.e Sample.salt_body Sample.store
  = (res 201 (JObj [("message", JStr "Product added successfully")]),
     mkdb [Sample.asha] [Sample.soap; Sample.rice; Sample.salt] []) /\
  addProduct Sample.e
    (ProductBody.mk (Some "P001") (Some "Salt") None (Some 20%Z) None
       (Some 50%Z) None)
    Sample.store
  = (res 500 (message "error" "Failed to add product"), Sample.store).
Proof.
  split.
  - destruct (addProduct_spec Sample.e Sample.salt_body Sample.store)
      as (_ & Hfresh).
    apply (Hfresh "P003" "Salt" 20%Z 50%Z); try reflexivity; try discriminate.
    simpl. intros p [<-|[<-|[]]]; split; discriminate.
  - destruct (addProduct_spec Sample.e
                (ProductBody.mk (Some "P001") (Some "Salt") None (Some 20%Z)
                   None (Some 50%Z) None)
                Sample.store) as (Hdup & _).
    apply (Hdup "P001" eq_refl). exists Sample.soap. split; [now left|reflexivity].
Defined.

(** Against C8 as the specification words it: no stored product has the [product_id],
    and the add, whose [name] is the empty string, is answered 500 and
    stores nothing. *)
Lemma addProduct_spec_counterexample :
  (forall p, In p (products Sample.store) -> Product.product_id p <> "P003") /\
  addProduct Sample.e
    (ProductBody.mk (Some "P003") (Some "") None (Some 20%Z) None (Some 50%Z)
       None)
    Sample.store
  = (res 500 (message "error" "Failed to add product"), Sample.store).
Proof.
  split; [|reflexivity].
  simpl. intros p [<-|[<-|[]]]; discriminate.
Qed.

(** ** Replacing the fields of a product *)

Section Update.
Variable castObjectId : string -> option ObjectId.

Lemma updateProduct_malformed (id : string) (b : ProductBody.t) (s : db) :
  castObjectId id = None ->
  updateProduct castObjectId id b s
  = (res 500 (message "error" "Failed to update product"), s).
Proof.
  intros Hc. unfold updateProduct, findByIdAndUpdate, castId.
  now rewrite Hc.
Qed.

Lemma updateProduct_absent (id : string) (oid : ObjectId) (b : ProductBody.t)
    (s : db) :
  castObjectId id = Some oid ->
  (forall p, In p (products s) -> Product._id p <> oid) ->
  updateProduct castObjectId id b s
  = (res 404 (message "error" "Product not found"), s).
Proof.
  intros Hc Hno.
  unfold updateProduct, findByIdAndUpdate, castId, findOneAndUpdate, findOne.
  rewrite Hc. simpl. rewrite find_absent; [reflexivity|].
  intros p Hp. apply has_id_false. now apply Hno.
Qed.

Lemma updateProduct_found (id : string) (oid : ObjectId) (b : ProductBody.t)
    (s : db) (before : list Product.doc) (p : Product.doc)
    (after : list Product.doc) :
  castObjectId id = Some oid ->
  first_match (fun x => Product._id x = oid) (products s) before p after ->
  updateProduct castObjectId id b s
  = (res 200
       (JObj [("message", JStr "Product updated successfully");
              ("product",
               JObj (toJSON
                       (applyUpdate
                          (ProductBody.mk None (ProductBody.name b)
                             (ProductBody.type b) (ProductBody.price b)
                             (Some (default 0%Z (ProductBody.purchasePrice b)))
                             (ProductBody.quantity b) (ProductBody.rack b))
                          p)))]),
     mkdb (users s)
       (before
        ++ applyUpdate
             (ProductBody.mk None (ProductBody.name b) (ProductBody.type b)
                (ProductBody.price b)
                (Some (default 0%Z (ProductBody.purchasePrice b)))
                (ProductBody.quantity b) (ProductBody.rack b))
             p
        :: after)
       (purchases s)).
Proof.
  intros Hc (Hs & Hp & Hb).
  assert (Hb' : forall x, In x before -> has_id oid x = false).
  { intros x Hx. apply has_id_false. now apply Hb. }
  assert (Hp' : has_id oid p = true) by now apply has_id_true.
  unfold updateProduct, findByIdAndUpdate, castId, findOneAndUpdate, findOne.
  rewrite Hc, Hs. cbn [bind].
  rewrite (find_first _ before p after Hb' Hp').
  now rewrite (updateOne_first _ _ before p after Hb' Hp').
Qed.

End Update.

(** C5. Full-replace update ([PUT /api/products/update/:id]), for a path
    parameter that denotes an identifier: when no record carries it the
    answer is 404 and the store is unchanged; otherwise the record that
    carries it is replaced in place by one with the body's [quantity],
    [name], [price], [type] and [rack] where the body gives them, with the
    body's [purchasePrice] or 0 when the body gives none, and with the
    [product_id] and [_id] it had; the answer is 200 and carries that
    record; no other record changes. *)
Theorem updateProduct_spec (cast : string -> option ObjectId) (id : string)
    (oid : ObjectId) (b : ProductBody.t) (s : db) :
  cast id = Some oid ->
  ((forall p, In p (products s) -> Product._id p <> oid) ->
   updateProduct cast id b s
   = (res 404 (message "error" "Product not found"), s)) /\
  (forall before p after,
     first_match (fun x => Product._id x = oid) (products s) before p after ->
     exists p',
       updateProduct cast id b s
       = (res 200 (JObj [("message", JStr "Product updated successfully");
                         ("product", JObj (toJSON p'))]),
          mkdb (users s) (before ++ p' :: after) (purchases s)) /\
       (forall v, ProductBody.quantity b = Some v -> Product.quantity p' = v) /\
       (forall v, ProductBody.name b = Some v -> Product.name p' = v) /\
       (forall v, ProductBody.price b = Some v -> Product.price p' = v) /\
       (forall v, ProductBody.type b = Some v -> Product.type p' = Some v) /\
       (forall v, ProductBody.rack b = Some v -> Product.rack p' = Some v) /\
       Product.purchasePrice p' = default 0%Z (ProductBody.purchasePrice b) /\
       Product.product_id p' = Product.product_id p /\
       Product._id p' = Product._id p).
Proof.
  intros Hc. split; [now apply updateProduct_absent|].
  intros before p after Hm.
  eexists. split; [exact (updateProduct_found cast id oid b s _ _ _ Hc Hm)|].
  simpl. repeat split; intros v Hv; now rewrite Hv.
Qed.

Lemma updateProduct_spec_witness :
  updateProduct hexObjectId Sample.soap_id
    (ProductBody.mk (Some "P777") (Some "Soap bar") (Some "Care") (Some 35%Z)
       None (Some 8%Z) (Some "C3"))
    Sample.store
  = (res 200
       (JObj [("message", JStr "Product updated successfully");
              ("product",
               JObj (toJSON (Product.mk 1%N "P001" "Soap bar" (Some "Care")
                               35%Z 0%Z 8%Z (Some "C3"))))]),
     mkdb [Sample.asha]
       [Product.mk 1%N "P001" "Soap bar" (Some "Care") 35%Z 0%Z 8%Z (Some "C3");
        Sample.rice] []) /\
  updateProduct hexObjectId Sample.absent_id Sample.rename_body Sample.store
  = (res 404 (message "error" "Product not found"), Sample.store).
Proof.
  split.
  - destruct (updateProduct_spec hexObjectId Sample.soap_id 1%N
                (ProductBody.mk (Some "P777") (Some "Soap bar") (Some "Care")
                   (Some 35%Z) None (Some 8%Z) (Some "C3"))
                Sample.store eq_refl) as (_ & Hfound).
    destruct (Hfound [] Sample.soap [Sample.rice]) as (p' & -> & H).
    { repeat split. intros x []. }
    destruct H as (Hq & Hn & Hp & Ht & Hr & Hpp & Hk & Hi).
    destruct p'. simpl in *.
    rewrite (Hq _ eq_refl), (Hn _ eq_refl), (Hp _ eq_refl), (Ht _ eq_refl),
      (Hr _ eq_refl), Hpp, Hk, Hi.
    reflexivity.
  - destruct (updateProduct_spec hexObjectId Sample.absent_id 255%N
                Sample.rename_body Sample.store eq_refl) as (Habsent & _).
    apply Habsent. simpl. intros p [<-|[<-|[]]]; discriminate.
Defined.

(** C10. In the full-replace update, a field among [quantity], [name],
    [price], [type] and [rack] that the body leaves out keeps its stored
    value, while a [purchasePrice] left out is written as 0 whatever was
    stored. *)
Theorem updateProduct_omitted (cast : string -> option ObjectId) (id : string)
    (oid : ObjectId) (b : ProductBody.t) (s : db)
    (before : list Product.doc) (p : Product.doc) (after : list Product.doc) :
  cast id = Some oid ->
  first_match (fun x => Product._id x = oid) (products s) before p after ->
  exists p',
    snd (updateProduct cast id b s)
    = mkdb (users s) (before ++ p' :: after) (purchases s) /\
    (ProductBody.quantity b = None -> Product.quantity p' = Product.quantity p) /\
    (ProductBody.name b = None -> Product.name p' = Product.name p) /\
    (ProductBody.price b = None -> Product.price p' = Product.price p) /\
    (ProductBody.type b = None -> Product.type p' = Product.type p) /\
    (ProductBody.rack b = None -> Product.rack p' = Product.rack p) /\
    (ProductBody.purchasePrice b = None -> Product.purchasePrice p' = 0%Z).
Proof.
  intros Hc Hm. eexists.
  rewrite (updateProduct_found cast id oid b s _ _ _ Hc Hm).
  split; [reflexivity|].
  simpl. repeat split; intros Hv; now rewrite Hv.
Qed.

Lemma updateProduct_omitted_witness :
  Product.purchasePrice Sample.soap = 22%Z /\
  exists p',
    snd (updateProduct hexObjectId Sample.soap_id Sample.rename_body
           Sample.store)
    = mkdb [Sample.asha] [p'; Sample.rice] [] /\
    Product.quantity p' = 10%Z /\
    Product.price p' = 30%Z /\
    Product.type p' = Some "Bath" /\
    Product.rack p' = Some "A1" /\
    Product.purchasePrice p' = 0%Z.
Proof.
  split; [reflexivity|].
  destruct (updateProduct_omitted hexObjectId Sample.soap_id 1%N
              Sample.rename_body Sample.store [] Sample.soap [Sample.rice]
              eq_refl) as (p' & Heq & Hq & _ & Hp & Ht & Hr & Hpp).
  { repeat split. intros x []. }
  exists p'. split; [exact Heq|].
  repeat split; [apply Hq | apply Hp | apply Ht | apply Hr | apply Hpp];
    reflexivity.
Defined.

(** ** Recording a purchase *)

Lemma exclude_nothing (o : object) : exclude [] o = o.
Proof.
  unfold exclude. induction o as [|kv o IH]; simpl; [reflexivity|].
  now f_equal.
Qed.

Lemma findAll_app {D} `{Schema D} (keys : list string) (c c' : list D) :
  findAll keys (c ++ c') = findAll keys c ++ findAll keys c'.
Proof. unfold findAll. apply map_app. Qed.

Lemma purchase_fields (oid : ObjectId) (c : Customer.t) (items : list json)
    (t : Z) (date : Z) :
  lookup "total" (toJSON (Purchase.mk oid c items (Some t) date))
  = Some (JNum t) /\
  lookup "date" (toJSON (Purchase.mk oid c items (Some t) date))
  = Some (JDate date) /\
  lookup "products" (toJSON (Purchase.mk oid c items (Some t) date))
  = Some (JArr items).
Proof.
  simpl. destruct (customerJSON c); repeat split.
Qed.

Lemma savePurchase_fresh (e : env) (b : PurchaseBody.t) (s : db)
    (d : Purchase.doc) :
  newPurchase e b = Ok d ->
  (forall x, In x (purchases s) -> Purchase._id x <> Purchase._id d) ->
  savePurchase e b s
  = (res 201 (message "message" "Purchase saved successfully"),
     mkdb (users s) (products s) (purchases s ++ [d])).
Proof.
  intros Hd Hnew. unfold savePurchase, insertOne. rewrite Hd. cbn [bind].
  rewrite existsb_absent; [reflexivity|].
  intros x Hin. simpl. rewrite orb_false_r.
  apply N.eqb_neq. now apply Hnew.
Qed.

Lemma savePurchase_refused (e : env) (b : PurchaseBody.t) (s : db) :
  PurchaseBody.total b = Some IllTyped \/
  PurchaseBody.date b = Some IllTyped ->
  savePurchase e b s
  = (res 500 (message "error" "Failed to save purchase"), s).
Proof.
  intros Hbad. unfold savePurchase, newPurchase.
  destruct Hbad as [Hb|Hb]; rewrite Hb.
  - reflexivity.
  - now destruct (castInput (PurchaseBody.total b)).
Qed.

(** C6. Record purchase ([POST /api/purchases]), when the identifier drawn
    is new: a body whose customer info, products array and total are of the
    types of the schema, with a date of that type or none, and with
    whatever keys that are no path of the schema, is stored as one new
    purchase with the customer, products and total of the body, dated by the
    body or, when the body has no date, by the server's clock, and with
    none of the other keys; the answer is 201; the users and the products
    are unchanged; and the list of purchases then ends with the new record,
    carrying the same total, date and products. A body whose total or date
    the cast refuses is answered 500 and nothing is stored. *)
Theorem savePurchase_spec (e : env) (s : db) (c : Customer.t)
    (items : list json) (t : Z) (date : option Z) (extra : object) :
  outside_schema extra ->
  (forall x, In x (purchases s) -> Purchase._id x <> new_id e) ->
  savePurchase e
    (PurchaseBody.mk (Some c) (Some items) (Some (Typed t))
       (option_map Typed date) extra) s
  = (res 201 (message "message" "Purchase saved successfully"),
     mkdb (users s) (products s)
       (purchases s
        ++ [Purchase.mk (new_id e) c items (Some t)
              (match date with Some given => given | None => now e end)])) /\
  products (snd (savePurchase e
                   (PurchaseBody.mk (Some c) (Some items) (Some (Typed t))
                      (option_map Typed date) extra) s))
  = products s /\
  (exists o,
     fst (getPurchases
            (snd (savePurchase e
                    (PurchaseBody.mk (Some c) (Some items) (Some (Typed t))
                       (option_map Typed date) extra) s)))
     = res 200 (JArr (findAll [] (purchases s) ++ [JObj o])) /\
     lookup "total" o = Some (JNum t) /\
     lookup "date" o
     = Some (JDate (match date with Some given => given | None => now e end)) /\
     lookup "products" o = Some (JArr items)) /\
  (forall d,
     savePurchase e
       (PurchaseBody.mk (Some c) (Some items) (Some IllTyped) d extra) s
     = (res 500 (message "error" "Failed to save purchase"), s)) /\
  (forall total,
     savePurchase e
       (PurchaseBody.mk (Some c) (Some items) total (Some IllTyped) extra) s
     = (res 500 (message "error" "Failed to save purchase"), s)).
Proof.
  intros _ Hnew.
  assert (Hd : newPurchase e
                 (PurchaseBody.mk (Some c) (Some items) (Some (Typed t))
                    (option_map Typed date) extra)
               = Ok (Purchase.mk (new_id e) c items (Some t)
                       (match date with
                        | Some given => given
                        | None => now e
                        end)))
    by now destruct date.
  rewrite (savePurchase_fresh e _ s _ Hd Hnew).
  split; [reflexivity|]. split; [reflexivity|]. split; [|split].
  - eexists. split.
    + unfold getPurchases. cbn [try_catch fst snd purchases].
      rewrite findAll_app. cbn [findAll map]. rewrite exclude_nothing.
      reflexivity.
    + apply purchase_fields.
  - intros d. apply savePurchase_refused. now left.
  - intros total. apply savePurchase_refused. now right.
Qed.

Lemma savePurchase_spec_witness :
  savePurchase Sample.e
    (PurchaseBody.mk (Some Sample.customer) (Some Sample.items)
       (Some (Typed 100%Z)) None [("note", JStr "cash")])
    Sample.store
  = (res 201 (message "message" "Purchase saved successfully"),
     mkdb [Sample.asha] [Sample.soap; Sample.rice]
       [Purchase.mk 9%N Sample.customer Sample.items (Some 100%Z)
          1700000000000%Z]).
Proof.
  destruct (savePurchase_spec Sample.e Sample.store Sample.customer
              Sample.items 100%Z None [("note", JStr "cash")]) as (Heq & _).
  - intros k v [[= <- <-]|[]]. simpl. intuition discriminate.
  - simpl. intros x [].
  - exact Heq.
Defined.

(** Against C6 as the specification words it: a body with customer info, a products
    array and a total the Number cast refuses is answered 500, and a key of
    the body that is no path of the schema is not in the record stored. *)
Lemma savePurchase_spec_counterexample :
  savePurchase Sample.e
    (PurchaseBody.mk (Some Sample.customer) (Some Sample.items)
       (Some IllTyped) None [])
    Sample.store
  = (res 500 (message "error" "Failed to save purchase"), Sample.store) /\
  exists o,
    fst (getPurchases
           (snd (savePurchase Sample.e
                   (PurchaseBody.mk (Some Sample.customer)
                      (Some Sample.items) (Some (Typed 100%Z)) None
                      [("note", JStr "cash")])
                   Sample.store)))
    = res 200 (JArr [JObj o]) /\
    lookup "note" o = None.
Proof.
  split; [reflexivity|]. eexists. split; reflexivity.
Qed.

(** ** The invariant of the store *)

Section Invariant.
Context {D K : Type}.
Variable key : D -> K.

Lemma NoDup_snoc (l : list K) (a : K) :
  NoDup l -> ~ In a l -> NoDup (l ++ [a]).
Proof.
  intros Hl Ha. induction Hl as [|x l Hx Hl IH]; simpl.
  - constructor; [intros []|constructor].
  - constructor.
    + intros Hin. apply in_app_or in Hin. destruct Hin as [Hin|[->|[]]].
      * now apply Hx.
      * apply Ha. now left.
    + apply IH. intros Hin. apply Ha. now right.
Qed.

Lemma keys_snoc (c : list D) (d : D) :
  NoDup (map key c) ->
  (forall x, In x c -> key x <> key d) ->
  NoDup (map key (c ++ [d])).
Proof.
  intros Hc Hd. rewrite map_app. simpl. apply NoDup_snoc; [exact Hc|].
  intros Hin. apply in_map_iff in Hin. destruct Hin as (x & Hk & Hx).
  now apply (Hd x Hx).
Qed.

Lemma keys_updateOne (filter : D -> bool) (f : D -> D) (c : list D) :
  (forall x, key (f x) = key x) ->
  map key (updateOne filter f c) = map key c.
Proof.
  intros Hf. induction c as [|x c IH]; simpl; [reflexivity|].
  destruct (filter x); simpl; [now rewrite Hf | now rewrite IH].
Qed.

Lemma deleteOne_in (filter : D -> bool) (c : list D) (x : D) :
  In x (deleteOne filter c) -> In x c.
Proof.
  induction c as [|y c IH]; simpl; [tauto|].
  destruct (filter y); simpl; [tauto|]. intros [->|Hin]; auto.
Qed.

Lemma keys_deleteOne (filter : D -> bool) (c : list D) :
  NoDup (map key c) -> NoDup (map key (deleteOne filter c)).
Proof.
  induction c as [|y c IH]; simpl; [auto|].
  intros Hnd. inversion Hnd as [|? ? Hy Hc]; subst.
  destruct (filter y); simpl; [exact Hc|].
  constructor; [|now apply IH].
  intros Hin. apply Hy. apply in_map_iff in Hin.
  destruct Hin as (x & Hk & Hx). rewrite <- Hk.
  apply in_map. now apply (deleteOne_in filter).
Qed.
End Invariant.

Lemma insertOne_inv {D} `{Schema D} (d : D) (c c' : list D) :
  insertOne d c = Ok c' ->
  c' = c ++ [d] /\
  forall x, In x c -> id_of x <> id_of d /\ unique_clash x d = false.
Proof.
  unfold insertOne.
  destruct (existsb _ c) eqn:E; [discriminate|]. intros [= <-].
  split; [reflexivity|]. intros x Hin.
  destruct (has_id (id_of d) x || unique_clash x d) eqn:Hx.
  - exfalso.
    assert (Hex : existsb (fun y => has_id (id_of d) y || unique_clash y d) c
                  = true)
      by (apply existsb_exists; exists x; auto).
    rewrite E in Hex. discriminate.
  - apply orb_false_iff in Hx. destruct Hx as (Hi & Hk).
    split; [now apply has_id_false | exact Hk].
Qed.

Lemma wf_empty : wf_db empty_db.
Proof. repeat split; constructor. Qed.

Lemma signup_wf (e : env) (b : SignupBody.t) (s : db) :
  wf_db s -> wf_db (snd (signup e b s)).
Proof.
  intros Hwf. unfold signup.
  destruct (findOne _ (users s)); [exact Hwf|].
  destruct (validateUser _ _ _ _ _) as [u|]; [|exact Hwf]. simpl.
  destruct (insertOne u (users s)) as [c|] eqn:E; [|exact Hwf]. simpl.
  apply insertOne_inv in E. destruct E as (-> & Hnew).
  destruct Hwf as (Hi & Hn & Hm & Hrest).
  repeat split; try apply Hrest; simpl.
  - apply (keys_snoc User._id); [exact Hi|]. intros x Hx. now apply Hnew.
  - apply keys_snoc; [exact Hn|]. intros x Hx.
    destruct (Hnew x Hx) as (_ & Hk). simpl in Hk.
    apply orb_false_iff in Hk. now apply String.eqb_neq.
  - apply keys_snoc; [exact Hm|]. intros x Hx.
    destruct (Hnew x Hx) as (_ & Hk). simpl in Hk.
    apply orb_false_iff in Hk. now apply String.eqb_neq.
Qed.

Lemma addProduct_wf (e : env) (b : ProductBody.t) (s : db) :
  wf_db s -> wf_db (snd (addProduct e b s)).
Proof.
  intros Hwf. unfold addProduct.
  destruct (validateProduct _ _) as [p|]; [|exact Hwf]. simpl.
  destruct (insertOne p (products s)) as [c|] eqn:E; [|exact Hwf]. simpl.
  apply insertOne_inv in E. destruct E as (-> & Hnew).
  destruct Hwf as (Hu & Hn & Hm & Hi & Hk & Hp).
  repeat split; try assumption; simpl.
  - apply (keys_snoc Product._id); [exact Hi|]. intros x Hx. now apply Hnew.
  - apply keys_snoc; [exact Hk|]. intros x Hx.
    destruct (Hnew x Hx) as (_ & Hc). simpl in Hc. now apply String.eqb_neq.
Qed.

Lemma savePurchase_wf (e : env) (b : PurchaseBody.t) (s : db) :
  wf_db s -> wf_db (snd (savePurchase e b s)).
Proof.
  intros Hwf. unfold savePurchase.
  destruct (newPurchase e b) as [d|]; [|exact Hwf]. cbn [bind].
  destruct (insertOne d (purchases s)) as [c|] eqn:E; [|exact Hwf]. simpl.
  apply insertOne_inv in E. destruct E as (-> & Hnew).
  destruct Hwf as (Hu & Hn & Hm & Hi & Hk & Hp).
  repeat split; try assumption; simpl.
  apply (keys_snoc Purchase._id); [exact Hp|]. intros x Hx. now apply Hnew.
Qed.

Lemma updateQuantity_wf (id : string) (b : ReduceBody.t) (s : db) :
  wf_db s -> wf_db (snd (updateQuantity id b s)).
Proof.
  intros Hwf. unfold updateQuantity.
  destruct (findOne _ (products s)) as [p|]; [|exact Hwf]. simpl.
  destruct (js_lt _ _); [exact Hwf|].
  destruct (saveQuantity _ _ _) as [c|] eqn:E; [|exact Hwf]. simpl.
  apply saveQuantity_inv in E. destruct E as (q & _ & _ & _ & ->).
  destruct Hwf as (Hu & Hn & Hm & Hi & Hk & Hp).
  repeat split; try assumption; unfold unique_ids; simpl;
    rewrite keys_updateOne; auto.
Qed.

Lemma updateProduct_wf (cast : string -> option ObjectId) (id : string)
    (b : ProductBody.t) (s : db) :
  wf_db s -> wf_db (snd (updateProduct cast id b s)).
Proof.
  intros Hwf. unfold updateProduct, findByIdAndUpdate, castId.
  destruct (cast id) as [oid|]; [|exact Hwf]. simpl.
  destruct (findOne _ (products s)); [|exact Hwf]. simpl.
  destruct Hwf as (Hu & Hn & Hm & Hi & Hk & Hp).
  repeat split; try assumption; unfold unique_ids; simpl;
    rewrite keys_updateOne; auto.
Qed.

Lemma deleteProductById_wf (cast : string -> option ObjectId) (id : string)
    (s : db) :
  wf_db s -> wf_db (snd (deleteProductById cast id s)).
Proof.
  intros Hwf. unfold deleteProductById, findByIdAndDelete, castId.
  destruct (cast id) as [oid|]; [|exact Hwf]. simpl.
  destruct (findOne _ (products s)); [|exact Hwf]. simpl.
  destruct Hwf as (Hu & Hn & Hm & Hi & Hk & Hp).
  repeat split; try assumption; unfold unique_ids; simpl;
    now apply keys_deleteOne.
Qed.

Lemma login_wf (b : LoginBody.t) (s : db) :
  wf_db s -> wf_db (snd (login b s)).
Proof. now rewrite login_unchanged. Qed.

Lemma serveDelete_wf (cast : string -> option ObjectId) (path : list string)
    (s : db) :
  wf_db s -> wf_db (snd (serveDelete cast path s)).
Proof.
  intros Hwf. rewrite serveDelete_routed.
  destruct (match_path deletePattern path); [|exact Hwf].
  now apply deleteProductById_wf.
Qed.

(** Every handler keeps the invariant. *)
Lemma handle_wf (cast : string -> option ObjectId) (e : env) (c : call)
    (s : db) :
  wf_db s -> wf_db (snd (handle cast e c s)).
Proof.
  intros Hwf. destruct c; simpl; try exact Hwf.
  - now apply signup_wf.
  - now apply login_wf.
  - now apply serveDelete_wf.
  - now apply addProduct_wf.
  - now apply updateProduct_wf.
  - now apply updateQuantity_wf.
  - now apply savePurchase_wf.
Qed.

(** Hence the invariant holds of every store the server gets to, and with
    it the uniqueness of identifiers the quantity-reduce properties rest
    on. *)
Lemma reachable_wf (cast : string -> option ObjectId) (s : db) :
  reachable cast s -> wf_db s.
Proof.
  induction 1 as [|e c s Hs IH]; [apply wf_empty | now apply handle_wf].
Qed.

Lemma reachable_unique_ids (cast : string -> option ObjectId) (s : db) :
  reachable cast s -> unique_ids (products s).
Proof. intros Hs. now destruct (reachable_wf cast s Hs) as (_ & _ & _ & Hi & _). Qed.

(** ** Outside the input contract

    What the handlers answer to the requests the properties above leave
    out: a required field that is missing or empty makes [save()] throw,
    and so does a path parameter that is no ObjectId; the handler's [catch]
    answers 500 and the store is as it was. *)

Lemma signup_invalid (e : env) (b : SignupBody.t) (s : db) :
  SignupBody.username b = "" \/ SignupBody.email b = "" \/
  SignupBody.password b = None \/ SignupBody.password b = Some "" \/
  SignupBody.phone b = None \/ SignupBody.phone b = Some "" ->
  (forall u, In u (users s) ->
     User.username u <> SignupBody.username b /\
     User.email u <> SignupBody.email b) ->
  signup e b s = (res 500 (message "error" "Signup failed"), s).
Proof.
  intros Hbad Hnew. unfold signup, findOne. rewrite find_absent.
  2: { intros u Hin. destruct (Hnew u Hin) as (Hn & Hm).
       apply orb_false_iff. split; now apply String.eqb_neq. }
  unfold validateUser, required_string.
  destruct (SignupBody.username b =? "") eqn:Hu; [reflexivity|].
  destruct (SignupBody.email b =? "") eqn:He; [reflexivity|].
  apply String.eqb_neq in Hu, He.
  destruct (SignupBody.password b) as [pw|]; [|reflexivity].
  destruct (pw =? "") eqn:Hp; [reflexivity|]. apply String.eqb_neq in Hp.
  destruct (SignupBody.phone b) as [ph|]; [|reflexivity].
  destruct (ph =? "") eqn:Hq; [reflexivity|]. apply String.eqb_neq in Hq.
  exfalso. destruct Hbad as [H|[H|[H|[H|[H|H]]]]];
    try discriminate; try contradiction; injection H as H; contradiction.
Qed.

Lemma addProduct_invalid (e : env) (b : ProductBody.t) (s : db) :
  ProductBody.product_id b = None \/ ProductBody.product_id b = Some "" \/
  ProductBody.name b = None \/ ProductBody.name b = Some "" \/
  ProductBody.price b = None \/ ProductBody.quantity b = None ->
  addProduct e b s = (res 500 (message "error" "Failed to add product"), s).
Proof.
  intros Hbad. unfold addProduct, validateProduct, required_string, required.
  destruct (ProductBody.product_id b) as [pid|]; [|reflexivity].
  destruct (pid =? "") eqn:Hp; [reflexivity|]. apply String.eqb_neq in Hp.
  destruct (ProductBody.name b) as [n|]; [|reflexivity].
  destruct (n =? "") eqn:Hn; [reflexivity|]. apply String.eqb_neq in Hn.
  destruct (ProductBody.price b); [|reflexivity].
  destruct (ProductBody.quantity b); [|reflexivity].
  exfalso. destruct Hbad as [H|[H|[H|[H|[H|H]]]]];
    try discriminate; injection H as H; contradiction.
Qed.

Example signup_without_phone :
  signup Sample.e (SignupBody.mk "ravi" "ravi@example.com" (Some "pw1") None)
    Sample.store
  = (res 500 (message "error" "Signup failed"), Sample.store).
Proof. reflexivity. Qed.

Example update_by_business_key :
  updateProduct hexObjectId "P001" Sample.rename_body Sample.store
  = (res 500 (message "error" "Failed to update product"), Sample.store).
Proof. reflexivity. Qed.

(** ** The route table *)

(** X1. Of the eleven handlers [server.js] registers, the router can select
    every one but the delete by [product_id]: for each of the other ten
    there is a request that reaches it, and for that one there is none. *)
Theorem routed_endpoints (h : endpoint) :
  (exists m path params, dispatch m path = Some (h, params)) <->
  h <> DeleteProductByProductId.
Proof.
  split.
  - intros (m & path & params & Hd) ->.
    exact (dispatch_never_by_product_id m path params Hd).
  - intros Hh. destruct h.
    + exists POST, ["api"; "signup"], []. reflexivity.
    + exists POST, ["api"; "login"], []. reflexivity.
    + exists GET, ["api"; "users"], []. reflexivity.
    + exists DELETE, ["api"; "products"; "x"], [("id", "x")]. reflexivity.
    + exists POST, ["api"; "products"], []. reflexivity.
    + exists GET, ["api"; "products"], []. reflexivity.
    + exists GET, ["api"; "purchases"], []. reflexivity.
    + exists PUT, ["api"; "products"; "update"; "x"], [("id", "x")].
      reflexivity.
    + exists PUT, ["api"; "products"; "x"], [("id", "x")]. reflexivity.
    + contradiction.
    + exists POST, ["api"; "purchases"], []. reflexivity.
Qed.

Lemma routed_endpoints_witness :
  exists m path params, dispatch m path = Some (UpdateQuantity, params).
Proof.
  apply (routed_endpoints UpdateQuantity). discriminate.
Defined.






(** ** Failures and reads *)

Lemma deleteProductById_failure (cast : string -> option ObjectId)
    (id : string) (s : db) :
  status (fst (deleteProductById cast id s)) <> 200%Z ->
  snd (deleteProductById cast id s) = s.
Proof.
  unfold deleteProductById, findByIdAndDelete, castId, findOneAndDelete.
  destruct (cast id) as [oid|]; simpl; [|reflexivity].
  destruct (findOne (has_id oid) (products s)); simpl; [|reflexivity].
  intros H. now contradiction H.
Qed.

(** X3. Whatever the call, an answer other than 200 and 201 leaves the
    database as it was: every handler writes on its success path only. *)
Theorem failure_leaves_store (cast : string -> option ObjectId) (e : env)
    (c : call) (s : db) :
  status (fst (handle cast e c s)) <> 200%Z ->
  status (fst (handle cast e c s)) <> 201%Z ->
  snd (handle cast e c s) = s.
Proof.
  destruct c as [b|b| |path|b| | |id b|id b|b]; simpl;
    try reflexivity.
  - unfold signup. destruct (findOne _ (users s)); simpl; [reflexivity|].
    destruct (validateUser _ _ _ _ _); simpl; [|reflexivity].
    destruct (insertOne _ _); simpl; [|reflexivity].
    intros _ H. now contradiction H.
  - intros _ _. apply login_unchanged.
  - rewrite serveDelete_routed.
    destruct (match_path deletePattern path); [|reflexivity].
    intros H _. now apply deleteProductById_failure.
  - unfold addProduct. destruct (validateProduct _ _); simpl; [|reflexivity].
    destruct (insertOne _ _); simpl; [|reflexivity].
    intros _ H. now contradiction H.
  - unfold updateProduct, findByIdAndUpdate, castId, findOneAndUpdate.
    destruct (cast id) as [oid|]; simpl; [|reflexivity].
    destruct (findOne (has_id oid) (products s)); simpl; [|reflexivity].
    intros H. now contradiction H.
  - unfold updateQuantity.
    destruct (findOne _ (products s)) as [p|]; simpl; [|reflexivity].
    destruct (js_lt _ _); simpl; [reflexivity|].
    destruct (saveQuantity _ _ _); simpl; [|reflexivity].
    intros H. now contradiction H.
  - unfold savePurchase. destruct (newPurchase e b); simpl; [|reflexivity].
    destruct (insertOne _ _); simpl; [|reflexivity].
    intros _ H. now contradiction H.
Qed.

Lemma failure_leaves_store_witness :
  snd (handle hexObjectId Sample.e
         (CallUpdateQuantity "P001" (ReduceBody.mk (Some 11%Z))) Sample.store)
  = Sample.store.
Proof.
  apply failure_leaves_store; simpl; discriminate.
Defined.

(** X4. List products ([GET /api/products]) answers 200 with one document
    per stored product, in order and in full: the [_id], [product_id],
    [name], [price], [purchasePrice] and [quantity] of the product, and its
    [type] and [rack] exactly when the product has them; the store is
    unchanged. *)
Theorem getProducts_spec (s : db) :
  exists docs,
    getProducts s = (res 200 (JArr docs), s) /\
    List.length docs = List.length (products s) /\
    (forall i p,
       nth_error (products s) i = Some p ->
       exists o,
         nth_error docs i = Some (JObj o) /\
         lookup "_id" o = Some (JId (Product._id p)) /\
         lookup "product_id" o = Some (JStr (Product.product_id p)) /\
         lookup "name" o = Some (JStr (Product.name p)) /\
         lookup "type" o = option_map JStr (Product.type p) /\
         lookup "price" o = Some (JNum (Product.price p)) /\
         lookup "purchasePrice" o = Some (JNum (Product.purchasePrice p)) /\
         lookup "quantity" o = Some (JNum (Product.quantity p)) /\
         lookup "rack" o = option_map JStr (Product.rack p)).
Proof.
  exists (findAll [] (products s)). unfold getProducts, findAll. simpl.
  split; [reflexivity|]. split; [apply length_map|].
  intros i p Hi. exists (toJSON p). split.
  - rewrite nth_error_map, Hi. simpl. now rewrite exclude_nothing.
  - simpl. destruct (Product.type p), (Product.rack p); repeat split.
Qed.

Lemma getProducts_spec_witness :
  exists docs o,
    getProducts Sample.store = (res 200 (JArr docs), Sample.store) /\
    nth_error docs 1 = Some (JObj o) /\
    lookup "product_id" o = Some (JStr "P002") /\
    lookup "quantity" o = Some (JNum 4) /\
    lookup "rack" o = None.
Proof.
  destruct (getProducts_spec Sample.store) as (docs & Heq & _ & Hnth).
  destruct (Hnth 1%nat Sample.rice eq_refl)
    as (o & Ho & _ & Hk & _ & _ & _ & _ & Hq & Hr).
  exists docs, o. repeat split; assumption.
Defined.

(** X5. List purchases ([GET /api/purchases]) answers 200 with one document
    per stored purchase, in order, each with the [_id], [products] and
    [date] of the purchase and its [total] exactly when it has one; the
    store is unchanged. *)
Theorem getPurchases_spec (s : db) :
  exists docs,
    getPurchases s = (res 200 (JArr docs), s) /\
    List.length docs = List.length (purchases s) /\
    (forall i p,
       nth_error (purchases s) i = Some p ->
       exists o,
         nth_error docs i = Some (JObj o) /\
         lookup "_id" o = Some (JId (Purchase._id p)) /\
         lookup "products" o = Some (JArr (Purchase.products p)) /\
         lookup "total" o = option_map JNum (Purchase.total p) /\
         lookup "date" o = Some (JDate (Purchase.date p))).
Proof.
  exists (findAll [] (purchases s)). unfold getPurchases, findAll. simpl.
  split; [reflexivity|]. split; [apply length_map|].
  intros i p Hi. exists (toJSON p). split.
  - rewrite nth_error_map, Hi. simpl. now rewrite exclude_nothing.
  - simpl. destruct (customerJSON (Purchase.customer p)), (Purchase.total p);
      repeat split.
Qed.

Lemma getPurchases_spec_witness :
  exists docs o,
    getPurchases (mkdb [] [] [Purchase.mk 5%N Sample.customer Sample.items
                                None 1700000000000%Z])
    = (res 200 (JArr docs),
       mkdb [] [] [Purchase.mk 5%N Sample.customer Sample.items None
                     1700000000000%Z]) /\
    nth_error docs 0 = Some (JObj o) /\
    lookup "total" o = None /\
    lookup "date" o = Some (JDate 1700000000000).
Proof.
  destruct (getPurchases_spec
              (mkdb [] [] [Purchase.mk 5%N Sample.customer Sample.items None
                             1700000000000%Z]))
    as (docs & Heq & _ & Hnth).
  destruct (Hnth 0%nat _ eq_refl) as (o & Ho & _ & _ & Ht & Hd).
  exists docs, o. repeat split; assumption.
Defined.

(** ** Deleting by the business key *)

(** X6. The delete handler keyed by [product_id], the one the router never
    selects: when no product has the key it answers 404 and leaves the
    store; otherwise it answers 200 and removes the first product with that
    key and nothing else. *)
Theorem deleteProductByProductId_spec (id : string) (s : db) :
  ((forall p, In p (products s) -> Product.product_id p <> id) ->
   deleteProductByProductId id s
   = (res 404 (message "error" "Product not found"), s)) /\
  (forall before p after,
     first_match (fun x => Product.product_id x = id) (products s)
       before p after ->
     deleteProductByProductId id s
     = (res 200 (message "message" "Product removed successfully"),
        mkdb (users s) (before ++ after) (purchases s))).
Proof.
  split.
  - intros Hno. unfold deleteProductByProductId, findOneAndDelete, findOne.
    rewrite find_absent; [reflexivity|].
    intros p Hp. apply String.eqb_neq. now apply Hno.
  - intros before p after (Hs & Hp & Hb).
    assert (Hb' : forall x, In x before ->
                    (Product.product_id x =? id) = false).
    { intros x Hx. apply String.eqb_neq. now apply Hb. }
    assert (Hp' : (Product.product_id p =? id) = true)
      by now apply String.eqb_eq.
    unfold deleteProductByProductId, findOneAndDelete, findOne.
    rewrite Hs.
    rewrite (find_first (fun x => Product.product_id x =? id)
               before p after Hb' Hp').
    rewrite (deleteOne_first (fun x => Product.product_id x =? id)
               before p after Hb' Hp').
    reflexivity.
Qed.

Lemma deleteProductByProductId_spec_witness :
  deleteProductByProductId "P002" Sample.store
  = (res 200 (message "message" "Product removed successfully"),
     mkdb [Sample.asha] [Sample.soap] []) /\
  deleteProductByProductId "P009" Sample.store
  = (res 404 (message "error" "Product not found"), Sample.store).
Proof.
  split.
  - destruct (deleteProductByProductId_spec "P002" Sample.store)
      as (_ & Hfound).
    apply (Hfound [Sample.soap] Sample.rice []).
    repeat split. intros x [<-|[]]. discriminate.
  - destruct (deleteProductByProductId_spec "P009" Sample.store)
      as (Habsent & _).
    apply Habsent. simpl. intros p [<-|[<-|[]]]; discriminate.
Defined.

(** ** The stock *)

Lemma Forall_updateOne {D} (P : D -> Prop) (filter : D -> bool) (f : D -> D)
    (c : list D) :
  Forall P c -> (forall x, filter x = true -> P (f x)) ->
  Forall P (updateOne filter f c).
Proof.
  intros Hc Hf. induction Hc as [|x c Hx Hc IH]; simpl; [constructor|].
  destruct (filter x) eqn:E; constructor; auto.
Qed.

(** X7. The quantity update never drives the stock below zero: whatever the
    product key and [quantityToReduce], if no stored quantity is negative
    before the call, none is after it. *)
Theorem updateQuantity_keeps_nonnegative (id : string) (b : ReduceBody.t)
    (s : db) :
  nonnegative_stock (products s) ->
  nonnegative_stock (products (snd (updateQuantity id b s))).
Proof.
  intros Hs. unfold updateQuantity.
  destruct (findOne _ (products s)) as [p|]; simpl; [|exact Hs].
  destruct (js_lt _ _) eqn:E; simpl; [exact Hs|].
  destruct (saveQuantity _ _ _) as [c|] eqn:Hc; simpl; [|exact Hs].
  apply saveQuantity_inv in Hc. destruct Hc as (v & Hv & _ & _ & ->).
  apply Forall_updateOne; [exact Hs|].
  intros x _. simpl.
  destruct (ReduceBody.quantityToReduce b) as [q|]; [|discriminate].
  simpl in Hv, E. injection Hv as <-. apply Z.ltb_ge in E.
  apply round_double_nonneg. lia.
Qed.

Lemma updateQuantity_keeps_nonnegative_witness :
  nonnegative_stock
    (products (snd (updateQuantity "P001" (ReduceBody.mk (Some 10%Z))
                      Sample.store))).
Proof.
  apply updateQuantity_keeps_nonnegative.
  repeat constructor; simpl; lia.
Defined.

Lemma first_match_replace {D} (P : D -> Prop) (c before : list D)
    (p p' : D) (after : list D) :
  first_match P c before p after -> P p' ->
  first_match P (before ++ p' :: after) before p' after.
Proof.
  intros (_ & _ & Hb) Hp'. repeat split; assumption.
Qed.



(** ** One operation after another *)

(** A product added with answer 201 is the last of the collection and
    carries the key of the body. *)
Lemma addProduct_created (e : env) (b : ProductBody.t) (s : db) :
  status (fst (addProduct e b s)) = 201%Z ->
  exists d,
    snd (addProduct e b s)
    = mkdb (users s) (products s ++ [d]) (purchases s) /\
    ProductBody.product_id b = Some (Product.product_id d).
Proof.
  unfold addProduct.
  destruct (validateProduct (new_id e) b) as [d|] eqn:V; simpl;
    [|discriminate].
  unfold insertOne. destruct (existsb _ (products s)); simpl; [discriminate|].
  intros _. exists d. split; [reflexivity|].
  exact (validateProduct_product_id _ _ _ V).
Qed.

(** X9. Add product rejects a repeat: after an add answered 201, any add
    with the same [product_id] is answered 500 and stores nothing, and a
    quantity update by that [product_id], whatever its body, no longer
    answers 404. *)
Theorem addProduct_twice (e : env) (b : ProductBody.t) (s : db) :
  status (fst (addProduct e b s)) = 201%Z ->
  (forall e' b',
     ProductBody.product_id b' = ProductBody.product_id b ->
     addProduct e' b' (snd (addProduct e b s))
     = (res 500 (message "error" "Failed to add product"),
        snd (addProduct e b s))) /\
  (forall pid b',
     ProductBody.product_id b = Some pid ->
     status (fst (updateQuantity pid b' (snd (addProduct e b s)))) <> 404%Z).
Proof.
  intros H201. destruct (addProduct_created e b s H201) as (d & -> & Hd).
  split.
  - intros e' b' Hsame. apply (addProduct_duplicate e' b' _ (Product.product_id d)).
    + now rewrite Hsame.
    + exists d. split; [|reflexivity]. simpl. apply in_or_app. right. now left.
  - intros pid b' Hpid. rewrite Hd in Hpid. injection Hpid as <-.
    unfold updateQuantity, findOne.
    destruct (find_present (fun p => Product.product_id p =? Product.product_id d)
                (products (mkdb (users s) (products s ++ [d]) (purchases s))) d)
      as (y & ->).
    + simpl. apply in_or_app. right. now left.
    + apply String.eqb_refl.
    + simpl. destruct (js_lt _ _); simpl; [discriminate|].
      destruct (saveQuantity _ _ _); simpl; discriminate.
Qed.

Lemma addProduct_twice_witness :
  addProduct Sample.e Sample.salt_body
    (snd (addProduct Sample.e Sample.salt_body Sample.store))
  = (res 500 (message "error" "Failed to add product"),
     snd (addProduct Sample.e Sample.salt_body Sample.store)).
Proof.
  destruct (addProduct_twice Sample.e Sample.salt_body Sample.store eq_refl)
    as (Hagain & _).
  now apply Hagain.
Defined.

(** A signup answered 201 met no user with the username and appended the
    record with the password of the body. *)
Lemma signup_created_password (e : env) (b : SignupBody.t) (s : db) :
  status (fst (signup e b s)) = 201%Z ->
  exists password phone,
    SignupBody.password b = Some password /\
    (forall u, In u (users s) -> User.username u <> SignupBody.username b) /\
    snd (signup e b s)
    = mkdb (users s ++ [User.mk (new_id e) (SignupBody.username b)
                          (SignupBody.email b) password phone])
        (products s) (purchases s).
Proof.
  unfold signup, findOne, validateUser, required_string, insertOne.
  destruct (find _ (users s)) eqn:E; simpl; [discriminate|].
  destruct (SignupBody.username b =? ""); simpl; [discriminate|].
  destruct (SignupBody.email b =? ""); simpl; [discriminate|].
  destruct (SignupBody.password b) as [pw|]; simpl; [|discriminate].
  destruct (pw =? ""); simpl; [discriminate|].
  destruct (SignupBody.phone b) as [ph|]; simpl; [|discriminate].
  destruct (ph =? ""); simpl; [discriminate|].
  destruct (existsb _ (users s)); simpl; [discriminate|].
  intros _. exists pw, ph. split; [reflexivity|]. split; [|reflexivity].
  intros u Hin. pose proof (find_none _ _ E u Hin) as Hu. simpl in Hu.
  apply orb_false_iff in Hu. now apply String.eqb_neq.
Qed.

(** X10. Signup then login: after a signup answered 201, a login with the
    username and the password of that signup is answered 200, and a login
    with the username and any other password, or none, is answered 401. *)
Theorem signup_then_login (e : env) (b : SignupBody.t) (s : db)
    (password : option string) :
  status (fst (signup e b s)) = 201%Z ->
  (password = SignupBody.password b ->
   fst (login (LoginBody.mk (SignupBody.username b) password)
          (snd (signup e b s)))
   = res 200 (message "message" "Login successful")) /\
  (password <> SignupBody.password b ->
   fst (login (LoginBody.mk (SignupBody.username b) password)
          (snd (signup e b s)))
   = res 401 (message "message" "Invalid credentials")).
Proof.
  intros H201.
  destruct (signup_created_password e b s H201) as (pw & ph & Hpw & Hno & ->).
  rewrite Hpw.
  pose (u := User.mk (new_id e) (SignupBody.username b) (SignupBody.email b)
               pw ph).
  assert (Hm : first_match
                 (fun x => User.username x
                           = LoginBody.username
                               (LoginBody.mk (SignupBody.username b) password))
                 (users (mkdb (users s ++ [u]) (products s) (purchases s)))
                 (users s) u []).
  { repeat split. exact Hno. }
  destruct (login_found _ _ _ _ _ Hm) as (Hok & Hbad). split.
  - intros ->. now apply Hok.
  - intros Hne. now apply Hbad.
Qed.

Lemma signup_then_login_witness :
  fst (login (LoginBody.mk "ravi" (Some "pw1"))
         (snd (signup Sample.e Sample.ravi_body Sample.store)))
  = res 200 (message "message" "Login successful") /\
  fst (login (LoginBody.mk "ravi" (Some "PW1"))
         (snd (signup Sample.e Sample.ravi_body Sample.store)))
  = res 401 (message "message" "Invalid credentials").
Proof.
  split.
  - destruct (signup_then_login Sample.e Sample.ravi_body Sample.store
                (Some "pw1") eq_refl) as (Hok & _).
    now apply Hok.
  - destruct (signup_then_login Sample.e Sample.ravi_body Sample.store
                (Some "PW1") eq_refl) as (_ & Hbad).
    apply Hbad. discriminate.
Defined.

Lemma unique_ids_elsewhere {D} `{Schema D} (before : list D) (p : D)
    (after : list D) :
  unique_ids (before ++ p :: after) ->
  forall x, In x (before ++ after) -> id_of x <> id_of p.
Proof.
  unfold unique_ids. rewrite map_app. simpl. intros Hnd x Hx Heq.
  apply NoDup_remove_2 in Hnd. apply Hnd.
  rewrite <- map_app, <- Heq. now apply in_map.
Qed.

(** X11. Deleting twice: on a store with unique identifiers, after a delete
    by identifier answered 200 the collection is one product shorter and
    the same request is answered 404 and changes nothing. *)
Theorem deleteProductById_twice (cast : string -> option ObjectId)
    (id : string) (s : db) :
  unique_ids (products s) ->
  status (fst (deleteProductById cast id s)) = 200%Z ->
  List.length (products s)
  = S (List.length (products (snd (deleteProductById cast id s)))) /\
  deleteProductById cast id (snd (deleteProductById cast id s))
  = (res 404 (message "message" "Product not found"),
     snd (deleteProductById cast id s)).
Proof.
  intros Hu H200.
  destruct (cast id) as [oid|] eqn:Hc.
  2: { rewrite (deleteProductById_malformed cast id s Hc) in H200.
       discriminate. }
  destruct (find (has_id oid) (products s)) as [p|] eqn:E.
  2: { rewrite (deleteProductById_absent cast id oid s Hc) in H200;
         [discriminate|].
       intros x Hx. exact (proj1 (has_id_false oid x) (find_none _ _ E x Hx)). }
  destruct (find_split _ _ _ E) as (before & after & Hs & Hp & Hb).
  assert (Hm : first_match (fun x => Product._id x = oid) (products s)
                 before p after).
  { split; [exact Hs|]. split; [exact (proj1 (has_id_true oid p) Hp)|].
    intros x Hx. exact (proj1 (has_id_false oid x) (Hb x Hx)). }
  rewrite (deleteProductById_found cast id oid s before p after Hc Hm).
  cbn [snd products]. split.
  - rewrite Hs, !length_app. simpl. lia.
  - apply (deleteProductById_absent cast id oid _ Hc). simpl.
    intros x Hx. rewrite Hs in Hu.
    apply has_id_true in Hp. simpl in Hp. rewrite <- Hp.
    exact (unique_ids_elsewhere before p after Hu x Hx).
Qed.

Lemma deleteProductById_twice_witness :
  deleteProductById hexObjectId Sample.soap_id
    (snd (deleteProductById hexObjectId Sample.soap_id Sample.store))
  = (res 404 (message "message" "Product not found"),
     snd (deleteProductById hexObjectId Sample.soap_id Sample.store)).
Proof.
  apply deleteProductById_twice; [|reflexivity].
  unfold unique_ids. simpl. repeat constructor; simpl; intuition discriminate.
Defined.

(** ** What the two update paths keep *)

Lemma length_updateOne {D} (filter : D -> bool) (f : D -> D) (c : list D) :
  List.length (updateOne filter f c) = List.length c.
Proof.
  induction c as [|x c IH]; simpl; [reflexivity|].
  destruct (filter x); simpl; [reflexivity | now rewrite IH].
Qed.

(** X12. Neither update path adds or removes a product or touches a key:
    after the full update and after the quantity update, whatever the
    request, the products carry the same [_id]s and the same [product_id]s
    in the same order, and users and purchases are as they were. *)
Theorem update_paths_keep_keys (cast : string -> option ObjectId)
    (id : string) (s : db) :
  (forall b,
     map Product._id (products (snd (updateProduct cast id b s)))
     = map Product._id (products s) /\
     map Product.product_id (products (snd (updateProduct cast id b s)))
     = map Product.product_id (products s) /\
     users (snd (updateProduct cast id b s)) = users s /\
     purchases (snd (updateProduct cast id b s)) = purchases s) /\
  (forall b,
     map Product._id (products (snd (updateQuantity id b s)))
     = map Product._id (products s) /\
     map Product.product_id (products (snd (updateQuantity id b s)))
     = map Product.product_id (products s) /\
     users (snd (updateQuantity id b s)) = users s /\
     purchases (snd (updateQuantity id b s)) = purchases s).
Proof.
  split; intros b.
  - unfold updateProduct, findByIdAndUpdate, castId, findOneAndUpdate.
    destruct (cast id) as [oid|]; simpl; [|auto].
    destruct (findOne (has_id oid) (products s)); simpl; [|auto].
    repeat split; apply keys_updateOne; reflexivity.
  - unfold updateQuantity.
    destruct (findOne _ (products s)) as [p|]; simpl; [|auto].
    destruct (js_lt _ _); simpl; [auto|].
    destruct (saveQuantity _ _ _) as [c|] eqn:E; simpl; [|auto].
    apply saveQuantity_inv in E. destruct E as (q & _ & _ & _ & ->).
    repeat split; apply keys_updateOne; reflexivity.
Qed.

Lemma applyUpdate_twice (u : ProductBody.t) (p : Product.doc) :
  applyUpdate u (applyUpdate u p) = applyUpdate u p.
Proof.
  unfold applyUpdate. simpl.
  destruct (ProductBody.product_id u), (ProductBody.name u),
    (ProductBody.type u), (ProductBody.price u),
    (ProductBody.purchasePrice u), (ProductBody.quantity u),
    (ProductBody.rack u); reflexivity.
Qed.

(** X13. The full update is idempotent: sending the same request a second
    time gives the same answer and leaves the store the first one made. *)
Theorem updateProduct_idempotent (cast : string -> option ObjectId)
    (id : string) (b : ProductBody.t) (s : db) :
  updateProduct cast id b (snd (updateProduct cast id b s))
  = (fst (updateProduct cast id b s), snd (updateProduct cast id b s)).
Proof.
  destruct (cast id) as [oid|] eqn:Hc.
  2: { now rewrite !(updateProduct_malformed cast id b _ Hc). }
  destruct (find (has_id oid) (products s)) as [p|] eqn:E.
  2: { assert (Hno : forall x, In x (products s) -> Product._id x <> oid).
       { intros x Hx. exact (proj1 (has_id_false oid x) (find_none _ _ E x Hx)). }
       rewrite (updateProduct_absent cast id oid b s Hc Hno). cbn [fst snd].
       exact (updateProduct_absent cast id oid b s Hc Hno). }
  destruct (find_split _ _ _ E) as (before & after & Hs & Hp & Hb).
  assert (Hm : first_match (fun x => Product._id x = oid) (products s)
                 before p after).
  { split; [exact Hs|]. split; [exact (proj1 (has_id_true oid p) Hp)|].
    intros x Hx. exact (proj1 (has_id_false oid x) (Hb x Hx)). }
  rewrite (updateProduct_found cast id oid b s before p after Hc Hm).
  cbn [fst snd].
  erewrite (updateProduct_found cast id oid b _ before _ after Hc).
  - now rewrite applyUpdate_twice.
  - simpl. apply (first_match_replace _ (products s) before p); [exact Hm|].
    simpl. now destruct Hm as (_ & Hi & _).
Qed.

(** ** The invariant, call by call *)

(** X14. Every call keeps the uniqueness the schemas declare: if in a store
    the [_id]s of each collection, the usernames, the emails and the
    [product_id]s are pairwise distinct, they are so after any call; hence
    they are so in every store the server gets to from the empty
    database. *)
Theorem store_invariant (cast : string -> option ObjectId) :
  (forall e c s, wf_db s -> wf_db (snd (handle cast e c s))) /\
  (forall s, reachable cast s -> wf_db s).
Proof.
  split.
  - intros e c s Hwf. now apply handle_wf.
  - intros s Hs. now apply (reachable_wf cast).
Qed.

Lemma store_invariant_witness :
  wf_db (snd (handle hexObjectId Sample.e (CallSignup Sample.ravi_body)
                empty_db)).
Proof.
  destruct (store_invariant hexObjectId) as (Hstep & Hreach).
  apply Hstep. apply Hreach. constructor.
Defined.

(** ** Exactly when a write succeeds *)

Lemma required_string_inv (v : option string) (a : string) :
  required_string v = Ok a -> v = Some a /\ a <> "".
Proof.
  unfold required_string. destruct v as [x|]; [|discriminate].
  destruct (x =? "") eqn:E; [discriminate|]. intros [= <-].
  split; [reflexivity | now apply String.eqb_neq].
Qed.

Lemma validateUser_inv (oid : ObjectId) (un em : string)
    (pw ph : option string) (u : User.doc) :
  validateUser oid (Some un) (Some em) pw ph = Ok u ->
  un <> "" /\ em <> "" /\
  exists p q,
    pw = Some p /\ p <> "" /\ ph = Some q /\ q <> "" /\
    u = User.mk oid un em p q.
Proof.
  unfold validateUser.
  destruct (required_string (Some un)) as [a|] eqn:Ha; [|discriminate].
  destruct (required_string (Some em)) as [c|] eqn:Hc; [|discriminate].
  destruct (required_string pw) as [p|] eqn:Hp; [|discriminate].
  destruct (required_string ph) as [q|] eqn:Hq; [|discriminate].
  cbn [bind]. intros [= <-].
  apply required_string_inv in Ha, Hc, Hp, Hq.
  destruct Ha as (Ha & Ha0), Hc as (Hc & Hc0), Hp as (-> & Hp0),
    Hq as (-> & Hq0).
  injection Ha as <-. injection Hc as <-.
  split; [exact Ha0|]. split; [exact Hc0|]. now exists p, q.
Qed.

Lemma validateProduct_inv (oid : ObjectId) (b : ProductBody.t)
    (d : Product.doc) :
  validateProduct oid b = Ok d ->
  Product._id d = oid /\
  ProductBody.product_id b = Some (Product.product_id d) /\
  Product.product_id d <> "" /\
  ProductBody.name b = Some (Product.name d) /\ Product.name d <> "" /\
  ProductBody.price b <> None /\ ProductBody.quantity b <> None.
Proof.
  unfold validateProduct.
  destruct (required_string (ProductBody.product_id b)) as [pid|] eqn:Hp;
    [|discriminate].
  destruct (required_string (ProductBody.name b)) as [n|] eqn:Hn;
    [|discriminate].
  destruct (ProductBody.price b) as [pr|]; [|discriminate].
  destruct (ProductBody.quantity b) as [q|]; [|discriminate].
  cbn [bind required]. intros [= <-]. simpl.
  apply required_string_inv in Hp, Hn.
  destruct Hp as (-> & Hp0), Hn as (-> & Hn0).
  repeat split; auto; discriminate.
Qed.

(** X15. Signup answers 201, 400 or 500 and nothing else: 400 exactly when
    a stored user has the username or the email; 201 exactly when none has,
    the username and the email are non-empty, the body carries a non-empty
    password and a non-empty phone, and the identifier drawn is new. *)
Theorem signup_status (e : env) (b : SignupBody.t) (s : db) :
  (status (fst (signup e b s)) = 400%Z <->
   exists u, In u (users s) /\
             (User.username u = SignupBody.username b \/
              User.email u = SignupBody.email b)) /\
  (status (fst (signup e b s)) = 201%Z <->
   (forall u, In u (users s) ->
      User.username u <> SignupBody.username b /\
      User.email u <> SignupBody.email b /\
      User._id u <> new_id e) /\
   SignupBody.username b <> "" /\ SignupBody.email b <> "" /\
   (exists password, SignupBody.password b = Some password /\ password <> "") /\
   (exists phone, SignupBody.phone b = Some phone /\ phone <> "")) /\
  (status (fst (signup e b s)) = 201%Z \/
   status (fst (signup e b s)) = 400%Z \/
   status (fst (signup e b s)) = 500%Z).
Proof.
  split; [|split].
  - split.
    + intros H400. now destruct (signup_rejected e b s H400) as (_ & Hu).
    + intros Hu. now rewrite (signup_conflict e b s Hu).
  - split.
    + unfold signup, findOne.
      destruct (find _ (users s)) eqn:E; cbn [try_catch fst status];
        [discriminate|].
      destruct (validateUser _ _ _ _ _) as [d|] eqn:V;
        cbn [bind try_catch fst status]; [|discriminate].
      destruct (insertOne d (users s)) as [c|] eqn:Hi;
        cbn [bind try_catch fst status]; [|discriminate].
      intros _.
      apply validateUser_inv in V.
      destruct V as (Hu & He & pw & ph & Hpw & Hp & Hph & Hq & ->).
      apply insertOne_inv in Hi. destruct Hi as (_ & Hi).
      split; [|split; [exact Hu|split; [exact He|split]]].
      * intros u Hin. pose proof (find_none _ _ E u Hin) as Hn. simpl in Hn.
        apply orb_false_iff in Hn. destruct Hn as (Hn1 & Hn2).
        apply String.eqb_neq in Hn1, Hn2.
        destruct (Hi u Hin) as (Hid & _). auto.
      * now exists pw.
      * now exists ph.
    + intros (Hnew & Hu & He & (pw & Hpw & Hp) & (ph & Hph & Hq)).
      now rewrite (signup_fresh e b s pw ph Hnew Hpw Hph Hu He Hp Hq).
  - unfold signup. destruct (findOne _ (users s)); simpl; [auto|].
    destruct (validateUser _ _ _ _ _); simpl; [|auto].
    destruct (insertOne _ _); simpl; auto.
Qed.

Lemma signup_status_witness :
  status (fst (signup Sample.e Sample.ravi_body Sample.store)) = 201%Z /\
  status (fst (signup Sample.e
                 (SignupBody.mk "asha" "a@example.com" (Some "x") (Some "1"))
                 Sample.store)) = 400%Z.
Proof.
  split.
  - destruct (signup_status Sample.e Sample.ravi_body Sample.store)
      as (_ & H201 & _).
    apply H201. split; [|split; [|split; [|split]]]; try discriminate.
    + simpl. intros u [<-|[]]. repeat split; discriminate.
    + exists "pw1". split; [reflexivity|discriminate].
    + exists "9000000002". split; [reflexivity|discriminate].
  - destruct (signup_status Sample.e
                (SignupBody.mk "asha" "a@example.com" (Some "x") (Some "1"))
                Sample.store) as (H400 & _).
    apply H400. exists Sample.asha. split; [now left|]. now left.
Defined.

(** X16. Add product answers 201 or 500 and nothing else, and 500 without
    storing: it answers 201 exactly when the body carries a non-empty
    [product_id] no stored product has, a non-empty [name], a [price] and a
    [quantity], and the identifier drawn is new. *)
Theorem addProduct_status (e : env) (b : ProductBody.t) (s : db) :
  (status (fst (addProduct e b s)) = 201%Z <->
   (exists pid,
      ProductBody.product_id b = Some pid /\ pid <> "" /\
      forall p, In p (products s) ->
        Product.product_id p <> pid /\ Product._id p <> new_id e) /\
   (exists n, ProductBody.name b = Some n /\ n <> "") /\
   ProductBody.price b <> None /\ ProductBody.quantity b <> None) /\
  (status (fst (addProduct e b s)) = 201%Z \/
   addProduct e b s
   = (res 500 (message "error" "Failed to add product"), s)).
Proof.
  split.
  - split.
    + unfold addProduct.
      destruct (validateProduct (new_id e) b) as [d|] eqn:V;
        cbn [bind try_catch fst status]; [|discriminate].
      destruct (insertOne d (products s)) as [c|] eqn:Hi;
        cbn [bind try_catch fst status]; [|discriminate].
      intros _. apply validateProduct_inv in V.
      destruct V as (Hid & Hpid & Hp0 & Hn & Hn0 & Hpr & Hq).
      apply insertOne_inv in Hi. destruct Hi as (_ & Hi).
      split; [|split; [|split]]; try assumption.
      * exists (Product.product_id d). split; [exact Hpid|].
        split; [exact Hp0|]. intros p Hin.
        destruct (Hi p Hin) as (Hne & Hk). simpl in Hk, Hne.
        apply String.eqb_neq in Hk. rewrite Hid in Hne. auto.
      * now exists (Product.name d).
    + intros ((pid & Hpid & Hp0 & Hnew) & (n & Hn & Hn0) & Hpr & Hq).
      destruct (ProductBody.price b) as [pr|] eqn:Epr; [|contradiction].
      destruct (ProductBody.quantity b) as [q|] eqn:Eq; [|contradiction].
      now rewrite (addProduct_fresh e b s pid n pr q Hpid Hn Epr Eq Hp0 Hn0
                     Hnew).
  - unfold addProduct. destruct (validateProduct _ _); simpl; [|auto].
    destruct (insertOne _ _); simpl; auto.
Qed.

Lemma addProduct_status_witness :
  status (fst (addProduct Sample.e Sample.salt_body Sample.store)) = 201%Z.
Proof.
  destruct (addProduct_status Sample.e Sample.salt_body Sample.store)
    as (H201 & _).
  apply H201. split; [|split; [|split]]; try discriminate.
  - exists "P003". split; [reflexivity|]. split; [discriminate|].
    simpl. intros p [<-|[<-|[]]]; split; discriminate.
  - exists "Salt". split; [reflexivity|discriminate].
Defined.

(** X17. A path parameter that is no ObjectId makes both handlers that
    look a product up by [_id], the delete and the full update, answer 500,
    not 404, and leave the store; so an answer 404 or 200 of either tells
    that the parameter was an identifier. *)
Theorem identifier_cast_errors (cast : string -> option ObjectId)
    (id : string) (s : db) :
  (cast id = None ->
   deleteProductById cast id s
   = (res 500 (message "message" "Server error"), s) /\
   forall b,
     updateProduct cast id b s
     = (res 500 (message "error" "Failed to update product"), s)) /\
  (status (fst (deleteProductById cast id s)) <> 500%Z -> cast id <> None) /\
  (forall b,
     status (fst (updateProduct cast id b s)) <> 500%Z -> cast id <> None).
Proof.
  split; [|split].
  - intros Hc. split.
    + exact (deleteProductById_malformed cast id s Hc).
    + intros b. exact (updateProduct_malformed cast id b s Hc).
  - intros Hs Hc.
    rewrite (deleteProductById_malformed cast id s Hc) in Hs. now apply Hs.
  - intros b Hs Hc.
    rewrite (updateProduct_malformed cast id b s Hc) in Hs. now apply Hs.
Qed.

Lemma identifier_cast_errors_witness :
  updateProduct hexObjectId "P001" Sample.rename_body Sample.store
  = (res 500 (message "error" "Failed to update product"), Sample.store) /\
  deleteProductById hexObjectId "P001" Sample.store
  = (res 500 (message "message" "Server error"), Sample.store).
Proof.
  destruct (identifier_cast_errors hexObjectId "P001" Sample.store)
    as (Hbad & _).
  destruct (Hbad eq_refl) as (Hdelete & Hupdate).
  split; [apply Hupdate | exact Hdelete].
Defined.

(** X18. Login answers 400 exactly when no stored user has the username,
    and a body without a password is never answered 200. *)
Theorem login_status (b : LoginBody.t) (s : db) :
  (status (fst (login b s)) = 400%Z <->
   forall u, In u (users s) -> User.username u <> LoginBody.username b) /\
  (LoginBody.password b = None -> status (fst (login b s)) <> 200%Z).
Proof.
  split.
  - split.
    + unfold login, findOne.
      destruct (find _ (users s)) as [u|] eqn:E; simpl.
      * destruct (LoginBody.password b) as [pw|]; simpl; [|discriminate].
        destruct (User.password u =? pw); discriminate.
      * intros _ u Hin. apply String.eqb_neq.
        exact (find_none _ _ E u Hin).
    + intros Hno. now rewrite (login_absent b s Hno).
  - intros Hpw. unfold login. rewrite Hpw.
    destruct (findOne _ (users s)); simpl; discriminate.
Qed.

Lemma login_status_witness :
  status (fst (login (LoginBody.mk "asha" None) Sample.store)) <> 200%Z /\
  status (fst (login (LoginBody.mk "nobody" (Some "Secret")) Sample.store))
  = 400%Z.
Proof.
  split.
  - destruct (login_status (LoginBody.mk "asha" None) Sample.store)
      as (_ & Hnone).
    now apply Hnone.
  - destruct (login_status (LoginBody.mk "nobody" (Some "Secret"))
                Sample.store) as (H400 & _).
    apply H400. simpl. intros u [<-|[]]. discriminate.
Defined.



(** ** What a call leaves alone *)

Lemma update_paths_keep_keys_frame (cast : string -> option ObjectId)
    (id : string) (s : db) :
  (forall b,
     users (snd (updateProduct cast id b s)) = users s /\
     purchases (snd (updateProduct cast id b s)) = purchases s) /\
  (forall b,
     users (snd (updateQuantity id b s)) = users s /\
     purchases (snd (updateQuantity id b s)) = purchases s).
Proof.
  split; intros b.
  - unfold updateProduct, findByIdAndUpdate, castId, findOneAndUpdate.
    destruct (cast id) as [oid|]; simpl; [|auto].
    destruct (findOne (has_id oid) (products s)); simpl; auto.
  - unfold updateQuantity.
    destruct (findOne _ (products s)) as [p|]; simpl; [|auto].
    destruct (js_lt _ _); simpl; [auto|].
    destruct (saveQuantity _ _ _); simpl; auto.
Qed.

Lemma insertOne_grows {D} `{Schema D} (d : D) (c c' : list D) :
  insertOne d c = Ok c' -> c' = c ++ [d].
Proof. intros Hi. now destruct (insertOne_inv d c c' Hi). Qed.

(** X20. Users and purchases are append-only: whatever the call, the users
    and the purchases stored before it are still there after it, unchanged
    and in the same order, followed by at most one new record. *)
Theorem append_only (cast : string -> option ObjectId) (e : env) (c : call)
    (s : db) :
  exists us ps,
    users (snd (handle cast e c s)) = users s ++ us /\
    (List.length us <= 1)%nat /\
    purchases (snd (handle cast e c s)) = purchases s ++ ps /\
    (List.length ps <= 1)%nat.
Proof.
  assert (Hsame : forall s' : db,
             users s' = users s -> purchases s' = purchases s ->
             exists us ps,
               users s' = users s ++ us /\ (List.length us <= 1)%nat /\
               purchases s' = purchases s ++ ps /\ (List.length ps <= 1)%nat).
  { intros s' Hu Hp. exists [], []. rewrite !app_nil_r. simpl. auto. }
  destruct c as [b|b| |path|b| | |id b|id b|b]; simpl;
    try (apply Hsame; reflexivity).
  - unfold signup. destruct (findOne _ (users s)); simpl; [now apply Hsame|].
    destruct (validateUser _ _ _ _ _) as [u|]; simpl; [|now apply Hsame].
    destruct (insertOne u (users s)) as [c|] eqn:E; simpl; [|now apply Hsame].
    apply insertOne_grows in E. subst c.
    exists [u], []. rewrite app_nil_r. simpl. auto.
  - rewrite login_unchanged. now apply Hsame.
  - rewrite serveDelete_routed.
    destruct (match_path deletePattern path); [|now apply Hsame].
    unfold deleteProductById, findByIdAndDelete, castId, findOneAndDelete.
    destruct (cast _); simpl; [|now apply Hsame].
    destruct (findOne _ (products s)); simpl; now apply Hsame.
  - unfold addProduct. destruct (validateProduct _ _); simpl;
      [|now apply Hsame].
    destruct (insertOne _ _); simpl; now apply Hsame.
  - destruct (update_paths_keep_keys_frame cast id s) as (Hup & _).
    destruct (Hup b) as (Hu & Hp). now apply Hsame.
  - destruct (update_paths_keep_keys_frame cast id s) as (_ & Hq).
    destruct (Hq b) as (Hu & Hp). now apply Hsame.
  - unfold savePurchase.
    destruct (newPurchase e b) as [d|]; simpl; [|now apply Hsame].
    destruct (insertOne d (purchases s)) as [c|] eqn:E; simpl;
      [|now apply Hsame].
    apply insertOne_grows in E. subst c.
    exists [], [d]. rewrite app_nil_r. simpl. auto.
Qed.

(** X21. The products are written by the product calls only: a signup, a
    login, a listing or a purchase leaves the Product collection exactly as
    it was; in particular recording a purchase takes nothing from the
    stock. *)
Theorem products_frame (cast : string -> option ObjectId) (e : env)
    (c : call) (s : db) :
  touches_products c = false ->
  products (snd (handle cast e c s)) = products s.
Proof.
  destruct c as [b|b| |path|b| | |id b|id b|b]; simpl;
    try discriminate; try reflexivity; intros _.
  - unfold signup. destruct (findOne _ (users s)); simpl; [reflexivity|].
    destruct (validateUser _ _ _ _ _); simpl; [|reflexivity].
    destruct (insertOne _ _); reflexivity.
  - now rewrite login_unchanged.
  - unfold savePurchase. destruct (newPurchase e b); simpl; [|reflexivity].
    destruct (insertOne _ _); reflexivity.
Qed.

Lemma products_frame_witness :
  products (snd (handle hexObjectId Sample.e
                   (CallSavePurchase
                      (PurchaseBody.mk (Some Sample.customer)
                         (Some Sample.items) (Some (Typed 100%Z)) None []))
                   Sample.store))
  = [Sample.soap; Sample.rice].
Proof.
  apply (products_frame hexObjectId Sample.e
           (CallSavePurchase
              (PurchaseBody.mk (Some Sample.customer) (Some Sample.items)
                 (Some (Typed 100%Z)) None []))
           Sample.store).
  reflexivity.
Defined.

(** ** Round trips *)

(** A product added with answer 201 carries the identifier drawn, which no
    product stored before carries. *)
Lemma addProduct_created_id (e : env) (b : ProductBody.t) (s : db) :
  status (fst (addProduct e b s)) = 201%Z ->
  exists d,
    snd (addProduct e b s)
    = mkdb (users s) (products s ++ [d]) (purchases s) /\
    Product._id d = new_id e /\
    forall p, In p (products s) -> Product._id p <> new_id e.
Proof.
  unfold addProduct.
  destruct (validateProduct (new_id e) b) as [d|] eqn:V;
    cbn [bind try_catch fst snd status]; [|discriminate].
  destruct (insertOne d (products s)) as [c|] eqn:Hi;
    cbn [bind try_catch fst snd status]; [|discriminate].
  intros _. apply validateProduct_inv in V. destruct V as (Hid & _).
  apply insertOne_inv in Hi. destruct Hi as (-> & Hi).
  exists d. split; [reflexivity|]. split; [exact Hid|].
  intros p Hin. destruct (Hi p Hin) as (Hne & _). simpl in Hne.
  now rewrite Hid in Hne.
Qed.

(** X22. Adding and then deleting is a round trip: after an add answered
    201, a delete by the identifier the new product was given is answered
    200 and leaves the store exactly as it was before the add. *)
Theorem add_then_delete (cast : string -> option ObjectId) (e : env)
    (b : ProductBody.t) (s : db) (id : string) :
  status (fst (addProduct e b s)) = 201%Z ->
  cast id = Some (new_id e) ->
  deleteProductById cast id (snd (addProduct e b s))
  = (res 200 (message "message" "Product deleted successfully"), s).
Proof.
  intros H201 Hc.
  destruct (addProduct_created_id e b s H201) as (d & -> & Hid & Hnew).
  rewrite (deleteProductById_found cast id (new_id e) _ (products s) d []
             Hc).
  - simpl. rewrite app_nil_r. now destruct s.
  - repeat split; assumption.
Qed.

Lemma add_then_delete_witness :
  deleteProductById hexObjectId "000000000000000000000009"
    (snd (addProduct Sample.e Sample.salt_body Sample.store))
  = (res 200 (message "message" "Product deleted successfully"),
     Sample.store).
Proof.
  apply (add_then_delete hexObjectId Sample.e Sample.salt_body Sample.store);
    reflexivity.
Defined.



(** With unique keys, the document at a position is the first match of its
    key there. *)
Lemma first_match_at {D K} (key : D -> K) (before : list D) (p : D)
    (after : list D) :
  NoDup (map key (before ++ p :: after)) ->
  first_match (fun x => key x = key p) (before ++ p :: after) before p after.
Proof.
  intros Hnd. repeat split. intros x Hx Heq.
  rewrite map_app in Hnd. simpl in Hnd.
  apply NoDup_remove_2 in Hnd. apply Hnd.
  apply in_or_app. left. rewrite <- Heq. now apply in_map.
Qed.

(** X24. The two delete handlers agree on a product named by both its keys:
    in a store with unique [_id]s and unique [product_id]s, deleting a
    stored product by its identifier and deleting it by its [product_id]
    both answer 200 and leave the same store. *)
Theorem delete_handlers_agree (cast : string -> option ObjectId)
    (id : string) (p : Product.doc) (s : db) :
  unique_ids (products s) ->
  NoDup (map Product.product_id (products s)) ->
  In p (products s) ->
  cast id = Some (Product._id p) ->
  status (fst (deleteProductById cast id s)) = 200%Z /\
  status (fst (deleteProductByProductId (Product.product_id p) s)) = 200%Z /\
  snd (deleteProductById cast id s)
  = snd (deleteProductByProductId (Product.product_id p) s).
Proof.
  intros Hu Hk Hin Hc.
  destruct (in_split p (products s) Hin) as (before & after & Hs).
  rewrite Hs in Hu, Hk.
  pose proof (first_match_at Product._id before p after Hu) as Hm1.
  pose proof (first_match_at Product.product_id before p after Hk) as Hm2.
  rewrite <- Hs in Hm1, Hm2.
  rewrite (deleteProductById_found cast id _ s before p after Hc Hm1).
  destruct Hm2 as (_ & Hp & Hb).
  assert (Hb' : forall x, In x before ->
                  (Product.product_id x =? Product.product_id p) = false).
  { intros x Hx. apply String.eqb_neq. now apply Hb. }
  assert (Hp' : (Product.product_id p =? Product.product_id p) = true)
    by apply String.eqb_refl.
  unfold deleteProductByProductId, findOneAndDelete, findOne. rewrite Hs.
  rewrite (find_first (fun x => Product.product_id x =? Product.product_id p)
             before p after Hb' Hp').
  rewrite (deleteOne_first
             (fun x => Product.product_id x =? Product.product_id p)
             before p after Hb' Hp').
  simpl. repeat split.
Qed.

Lemma delete_handlers_agree_witness :
  snd (deleteProductById hexObjectId Sample.soap_id Sample.store)
  = snd (deleteProductByProductId "P001" Sample.store).
Proof.
  apply (delete_handlers_agree hexObjectId Sample.soap_id Sample.soap
           Sample.store).
  - unfold unique_ids. simpl. repeat constructor; simpl; intuition discriminate.
  - simpl. repeat constructor; simpl; intuition discriminate.
  - now left.
  - reflexivity.
Defined.
